(** * Kloom: the recording ledger and the upload/transfer state machine

    A shallow embedding of
      - [src/lib/firestore.ts]: the recording ledger;
      - the Drive and GCS helpers that the handlers import from [@/lib/drive]
        ([uploadToDriveResumable], [transferFromGcsToDrive], [checkGcsFile],
        [generateSignedUploadUrl], [deleteFromDrive]);
      - the two creation handlers ([POST], with and without a signed URL);
      - [src/app/api/upload/[id]/route.ts]: direct upload ([PUT]) and status
        check ([GET]);
      - [src/app/api/upload/[id]/transfer/route.ts]: the transfer trigger;
      - the [GET], [PATCH] and [DELETE] handlers of one recording;
    followed by the properties of the specification that concern them.

    The handlers are [async] functions over three external stores.  They are
    embedded as functions in a state-and-exception monad over a [World] that
    holds the Firestore collections, the GCS bucket and the Drive files.
    Firestore and GCS are modelled as reliable stores: a call fails only when
    the state makes it fail (update of a missing document, download of a
    missing object).  Drive calls fail or succeed as an [Oracle] says.
    Numbers are integers, strings are sequences of 8-bit characters. *)

From Stdlib Require Import ZArith String Ascii Strings.Byte.
From stdpp Require Import gmap strings list fin_maps sorting.

Local Open Scope Z_scope.
Local Open Scope string_scope.

(** ** Data model ([src/lib/firestore.ts], lines 10-30) *)

Inductive Status : Type := processing | uploading | ready | error.

Global Instance Status_eq_dec : EqDecision Status.
Proof. solve_decision. Defined.

(** A [Date] is identified with its epoch milliseconds; the stored form
    ([toISOString]) and the form handed back by [new Date(iso)] are the same
    value in this model. *)
Definition Date := Z.

Record Recording : Type := mkRecording {
  id : string;
  title : string;
  driveFileId : string;
  driveFolderId : string;
  duration : Z;
  thumbnailUrl : option string;
  status : Status;
  createdAt : Date;
  updatedAt : Date;
  viewCount : Z;
  fileSize : Z;
  gcsPath : option string
}.

Inductive Quality : Type := q720p | q1080p | q4k.

Record Settings : Type := mkSettings {
  settings_driveFolderId : string;
  defaultQuality : Quality;
  defaultMicEnabled : bool;
  defaultWebcamEnabled : bool
}.

(** [Partial<Recording>]: every field may be present or absent. *)
Record Updates : Type := mkUpdates {
  u_id : option string;
  u_title : option string;
  u_driveFileId : option string;
  u_driveFolderId : option string;
  u_duration : option Z;
  u_thumbnailUrl : option string;
  u_status : option Status;
  u_createdAt : option Date;
  u_updatedAt : option Date;
  u_viewCount : option Z;
  u_fileSize : option Z;
  u_gcsPath : option string
}.

Definition no_updates : Updates :=
  mkUpdates None None None None None None None None None None None None.

Definition with_title (v : string) (u : Updates) : Updates :=
  mkUpdates (u_id u) (Some v) (u_driveFileId u) (u_driveFolderId u)
    (u_duration u) (u_thumbnailUrl u) (u_status u) (u_createdAt u)
    (u_updatedAt u) (u_viewCount u) (u_fileSize u) (u_gcsPath u).

Definition with_driveFileId (v : string) (u : Updates) : Updates :=
  mkUpdates (u_id u) (u_title u) (Some v) (u_driveFolderId u)
    (u_duration u) (u_thumbnailUrl u) (u_status u) (u_createdAt u)
    (u_updatedAt u) (u_viewCount u) (u_fileSize u) (u_gcsPath u).

Definition with_status (v : Status) (u : Updates) : Updates :=
  mkUpdates (u_id u) (u_title u) (u_driveFileId u) (u_driveFolderId u)
    (u_duration u) (u_thumbnailUrl u) (Some v) (u_createdAt u)
    (u_updatedAt u) (u_viewCount u) (u_fileSize u) (u_gcsPath u).

Definition with_createdAt (v : Date) (u : Updates) : Updates :=
  mkUpdates (u_id u) (u_title u) (u_driveFileId u) (u_driveFolderId u)
    (u_duration u) (u_thumbnailUrl u) (u_status u) (Some v)
    (u_updatedAt u) (u_viewCount u) (u_fileSize u) (u_gcsPath u).

Definition with_updatedAt (v : Date) (u : Updates) : Updates :=
  mkUpdates (u_id u) (u_title u) (u_driveFileId u) (u_driveFolderId u)
    (u_duration u) (u_thumbnailUrl u) (u_status u) (u_createdAt u)
    (Some v) (u_viewCount u) (u_fileSize u) (u_gcsPath u).

Definition with_viewCount (v : Z) (u : Updates) : Updates :=
  mkUpdates (u_id u) (u_title u) (u_driveFileId u) (u_driveFolderId u)
    (u_duration u) (u_thumbnailUrl u) (u_status u) (u_createdAt u)
    (u_updatedAt u) (Some v) (u_fileSize u) (u_gcsPath u).

Definition with_fileSize (v : Z) (u : Updates) : Updates :=
  mkUpdates (u_id u) (u_title u) (u_driveFileId u) (u_driveFolderId u)
    (u_duration u) (u_thumbnailUrl u) (u_status u) (u_createdAt u)
    (u_updatedAt u) (u_viewCount u) (Some v) (u_gcsPath u).

Definition with_gcsPath (v : string) (u : Updates) : Updates :=
  mkUpdates (u_id u) (u_title u) (u_driveFileId u) (u_driveFolderId u)
    (u_duration u) (u_thumbnailUrl u) (u_status u) (u_createdAt u)
    (u_updatedAt u) (u_viewCount u) (u_fileSize u) (Some v).

(** Firestore's [update]: the fields present in the update replace the
    stored ones, the others are kept. *)
Definition merge_fields (d : Recording) (u : Updates) : Recording :=
  {| id := default (id d) (u_id u);
     title := default (title d) (u_title u);
     driveFileId := default (driveFileId d) (u_driveFileId u);
     driveFolderId := default (driveFolderId d) (u_driveFolderId u);
     duration := default (duration d) (u_duration u);
     thumbnailUrl :=
       match u_thumbnailUrl u with Some v => Some v | None => thumbnailUrl d end;
     status := default (status d) (u_status u);
     createdAt := default (createdAt d) (u_createdAt u);
     updatedAt := default (updatedAt d) (u_updatedAt u);
     viewCount := default (viewCount d) (u_viewCount u);
     fileSize := default (fileSize d) (u_fileSize u);
     gcsPath :=
       match u_gcsPath u with Some v => Some v | None => gcsPath d end |}.

(** ** The external stores *)

Record DriveFile : Type := mkDriveFile {
  f_id : string;
  f_name : string;
  f_parent : string;
  f_mimeType : string;
  f_bytes : list byte;
  f_public : bool
}.

(** What Drive answers during one run of a handler: [files.create] returns a
    file id or throws, [permissions.create] and [files.get] succeed or throw,
    and the final GCS [file.delete()] succeeds or throws. *)
Record Oracle : Type := mkOracle {
  create_reply : option string;
  permission_ok : bool;
  get_ok : bool;
  gcs_delete_ok : bool
}.

Record World : Type := mkWorld {
  recordings : gmap string Recording;   (* collection 'recordings', by doc id *)
  user_settings : option Settings;      (* document settings/user_settings *)
  bucket : gmap string (list byte);     (* the GCS holding bucket, by path *)
  drive : list DriveFile;               (* files created in Drive, oldest first *)
  clock : Date;                         (* next value of [new Date()] *)
  journal : list (string * Updates)     (* committed [update] calls, oldest first *)
}.

Definition set_recordings (m : gmap string Recording) (w : World) : World :=
  mkWorld m (user_settings w) (bucket w) (drive w) (clock w) (journal w).
Definition set_user_settings (s : option Settings) (w : World) : World :=
  mkWorld (recordings w) s (bucket w) (drive w) (clock w) (journal w).
Definition set_bucket (b : gmap string (list byte)) (w : World) : World :=
  mkWorld (recordings w) (user_settings w) b (drive w) (clock w) (journal w).
Definition set_drive (d : list DriveFile) (w : World) : World :=
  mkWorld (recordings w) (user_settings w) (bucket w) d (clock w) (journal w).
Definition set_clock (c : Date) (w : World) : World :=
  mkWorld (recordings w) (user_settings w) (bucket w) (drive w) c (journal w).
Definition set_journal (j : list (string * Updates)) (w : World) : World :=
  mkWorld (recordings w) (user_settings w) (bucket w) (drive w) (clock w) j.

(** ** The monad of the handlers: state and exceptions *)

Inductive Result (A : Type) : Type :=
| Ok (a : A)
| Throw (message : string).
Arguments Ok {A} a.
Arguments Throw {A} message.

Definition M (A : Type) : Type := World -> Result A * World.

Definition ret {A} (a : A) : M A := fun w => (Ok a, w).
Definition throw {A} (msg : string) : M A := fun w => (Throw msg, w).
Definition bind {A B} (m : M A) (k : A -> M B) : M B :=
  fun w => match m w with
           | (Ok a, w') => k a w'
           | (Throw e, w') => (Throw e, w')
           end.
(** [try { m } catch (error) { h error }]: the effects of [m] up to the
    exception stay, the stores being external. *)
Definition try_catch {A} (m : M A) (h : string -> M A) : M A :=
  fun w => match m w with
           | (Ok a, w') => (Ok a, w')
           | (Throw e, w') => h e w'
           end.
Definition get_world : M World := fun w => (Ok w, w).
Definition modify (f : World -> World) : M unit := fun w => (Ok tt, f w).

Notation "'await' x ':=' m 'in' k" := (bind m (fun x => k))
  (at level 10, x name, m at level 100, k at level 200).
Notation "'exec' m 'then' k" := (bind m (fun _ => k))
  (at level 10, m at level 100, k at level 200).

(** [new Date()]: a logical clock, each reading is later than the last. *)
Definition new_Date : M Date :=
  fun w => (Ok (clock w), set_clock (clock w + 1) w).

(** ** The recording ledger ([src/lib/firestore.ts]) *)

(** [createRecording], lines 82-98: [set] creates or overwrites.  The
    argument is an [Omit<Recording, 'createdAt' | 'updatedAt' | 'viewCount'>]:
    these three fields of [recording] are not read. *)
Definition createRecording (recording : Recording) : M Recording :=
  await now := new_Date in
  let fullRecording :=
    {| id := id recording; title := title recording;
       driveFileId := driveFileId recording;
       driveFolderId := driveFolderId recording;
       duration := duration recording;
       thumbnailUrl := thumbnailUrl recording;
       status := status recording;
       createdAt := now; updatedAt := now; viewCount := 0;
       fileSize := fileSize recording; gcsPath := gcsPath recording |} in
  exec modify (fun w => set_recordings (<[id recording := fullRecording]> (recordings w)) w) then
  ret fullRecording.

(** [getRecording], lines 100-114: the [id] handed back is the document key,
    whatever the stored [id] field says. *)
Definition with_doc_id (k : string) (data : Recording) : Recording :=
  {| id := k; title := title data; driveFileId := driveFileId data;
     driveFolderId := driveFolderId data; duration := duration data;
     thumbnailUrl := thumbnailUrl data; status := status data;
     createdAt := createdAt data; updatedAt := updatedAt data;
     viewCount := viewCount data; fileSize := fileSize data;
     gcsPath := gcsPath data |}.

Definition getRecording (k : string) : M (option Recording) :=
  await w := get_world in
  match recordings w !! k with
  | None => ret None
  | Some data => ret (Some (with_doc_id k data))
  end.

(** Firestore's [doc(k).update(data)]: fails with NOT_FOUND when the document
    is missing, merges otherwise.  A committed update is put in the journal. *)
Definition firestore_update (k : string) (updateData : Updates) : M unit :=
  await w := get_world in
  match recordings w !! k with
  | None => throw "NOT_FOUND: No document to update"
  | Some data =>
      modify (fun w =>
        set_journal (journal w ++ [(k, updateData)])
          (set_recordings (<[k := merge_fields data updateData]> (recordings w)) w))
  end.

(** [updateRecording], lines 116-127. *)
Definition updateRecording (k : string) (updates : Updates) : M unit :=
  await now := new_Date in
  let updateData := with_updatedAt now updates in
  let updateData :=
    match u_createdAt updates with
    | Some c => with_createdAt c updateData
    | None => updateData
    end in
  firestore_update k updateData.

(** [deleteRecording], lines 129-131: Firestore's [delete] succeeds whether
    the document exists or not. *)
Definition deleteRecording (k : string) : M unit :=
  modify (fun w => set_recordings (delete k (recordings w)) w).

(** [a || 0] on a number. *)
Definition or_zero (a : Z) : Z := if (a =? 0)%Z then 0 else a.

(** The callback of the transaction in [incrementViewCount], lines 154-161:
    from the snapshot read, the update to write, if any. *)
Definition incrementViewCount_body (now : Date) (doc : option Recording)
  : option Updates :=
  match doc with
  | Some data =>
      let currentCount := or_zero (viewCount data) in
      Some (with_updatedAt now (with_viewCount (currentCount + 1) no_updates))
  | None => None
  end.

(** [transaction.get(docRef)]: the snapshot the transaction works on. *)
Definition transaction_get (k : string) : M (option Recording) :=
  await w := get_world in ret (recordings w !! k).

(** The rest of the callback once the snapshot is read, and its commit. *)
Definition transaction_commit (k : string) (doc : option Recording) : M unit :=
  match doc with
  | Some _ =>
      await now := new_Date in
      match incrementViewCount_body now doc with
      | Some updateData => firestore_update k updateData
      | None => ret tt
      end
  | None => ret tt
  end.

(** [incrementViewCount], lines 151-163, run alone: the transaction reads,
    computes and commits without interference. *)
Definition incrementViewCount (k : string) : M unit :=
  await doc := transaction_get k in
  transaction_commit k doc.

(** [getSettings] and [saveSettings], lines 165-177. *)
Definition getSettings : M (option Settings) :=
  await w := get_world in ret (user_settings w).

Definition saveSettings (s : Settings) : M unit :=
  modify (set_user_settings (Some s)).

(** ** Drive and GCS helpers ([@/lib/drive]) *)

(** Only [fileId] of [UploadResult] is read by the handlers. *)
Record UploadResult : Type := mkUploadResult { fileId : string }.

Definition drive_files_create (o : Oracle) (name parent mimeType : string)
    (body : list byte) : M string :=
  match create_reply o with
  | None => throw "Drive files.create failed"
  | Some fid =>
      exec modify (fun w =>
        set_drive (drive w ++ [mkDriveFile fid name parent mimeType body false]) w)
      then ret fid
  end.

Definition make_public (fid : string) (f : DriveFile) : DriveFile :=
  if String.eqb (f_id f) fid
  then mkDriveFile (f_id f) (f_name f) (f_parent f) (f_mimeType f) (f_bytes f) true
  else f.

Definition drive_permissions_create (o : Oracle) (fid : string) : M unit :=
  if permission_ok o
  then modify (fun w => set_drive (make_public fid <$> drive w) w)
  else throw "Drive permissions.create failed".

Definition drive_files_get (o : Oracle) (fid : string) : M string :=
  if get_ok o then ret fid else throw "Drive files.get failed".

(** [uploadToDriveResumable]: create the file, make it public, read it back. *)
Definition uploadToDriveResumable (o : Oracle) (fileBuffer : list byte)
    (fileName mimeType folderId : string) : M UploadResult :=
  await fid := drive_files_create o fileName folderId mimeType fileBuffer in
  exec drive_permissions_create o fid then
  await info_id := drive_files_get o fid in
  ret (mkUploadResult info_id).

(** [generateSignedUploadUrl]: the path in the bucket. *)
Definition upload_path (recordingId : string) : string :=
  "uploads/" +:+ recordingId +:+ ".webm".

(** [file.download()] of GCS: throws when there is no such object. *)
Definition gcs_download (path : string) : M (list byte) :=
  await w := get_world in
  match bucket w !! path with
  | Some buffer => ret buffer
  | None => throw "No such object"
  end.

Definition gcs_delete (o : Oracle) (path : string) : M unit :=
  if gcs_delete_ok o
  then modify (fun w => set_bucket (delete path (bucket w)) w)
  else throw "GCS delete failed".

(** [transferFromGcsToDrive]: download, create, make public, read back, then
    delete the holding object, best effort. *)
Definition transferFromGcsToDrive (o : Oracle) (path fileName folderId : string)
  : M UploadResult :=
  await buffer := gcs_download path in
  await fid := drive_files_create o fileName folderId "video/webm" buffer in
  exec drive_permissions_create o fid then
  await info_id := drive_files_get o fid in
  exec try_catch (gcs_delete o path) (fun _ => ret tt) then
  ret (mkUploadResult info_id).

(** [checkGcsFile]. *)
Definition checkGcsFile (path : string) : M bool :=
  await w := get_world in
  ret (match bucket w !! path with Some _ => true | None => false end).

(** [deleteFromDrive]. *)
Definition deleteFromDrive (drive_ok : bool) (fid : string) : M unit :=
  if drive_ok
  then modify (fun w =>
         set_drive (filter (fun f => f_id f <> fid) (drive w)) w)
  else throw "Drive files.delete failed".

(** ** Handlers *)

(** JavaScript truthiness of a string, and of an optional string. *)
Definition truthy (s : string) : bool :=
  match s with EmptyString => false | String _ _ => true end.

Definition truthy_opt (s : option string) : bool :=
  match s with Some s => truthy s | None => false end.

Inductive Body : Type :=
| ErrorBody (message : string)
| UploadedBody (fid : string) (st : Status)
| StatusBody (st : Status) (fid : string)
| RecordingBody (r : option Recording)
| CreatedBody (r : Recording) (shareUrl uploadUrl : string) (transferUrl : option string)
| SuccessBody.

Record Response : Type := mkResponse { code : Z; body : Body }.

(** [NextResponse.json(body, { status })]. *)
Definition json (b : Body) (c : Z) : M Response := ret (mkResponse c b).

(** The character class [[a-zA-Z0-9]]. *)
Definition is_alnum (c : ascii) : bool :=
  let n := nat_of_ascii c in
  ((97 <=? n) && (n <=? 122) || (65 <=? n) && (n <=? 90)
   || (48 <=? n) && (n <=? 57))%nat.

(** [title.replace(/[^a-zA-Z0-9]/g, '_')]: the replacement is per character
    (per code unit in the source). *)
Fixpoint sanitize (s : string) : string :=
  match s with
  | EmptyString => EmptyString
  | String c rest => String (if is_alnum c then c else "_"%char) (sanitize rest)
  end.

(** The template string of [route.ts] line 60 and [transfer/route.ts] line 63. *)
Definition fileName (title k : string) : string :=
  sanitize title +:+ "_" +:+ k +:+ ".webm".

Definition settings_folder (s : option Settings) : string :=
  match s with Some s => settings_driveFolderId s | None => "" end.

(** [PUT] of [src/app/api/upload/[id]/route.ts], lines 15-102. *)
Definition PUT (o : Oracle) (k : string) (payload : list byte) : M Response :=
  try_catch
    (await recording := getRecording k in
     match recording with
     | None => json (ErrorBody "Recording not found") 404
     | Some recording =>
       await settings := getSettings in
       if negb (truthy (settings_folder settings)) then
         json (ErrorBody "Google Drive folder not configured. Please go to Settings and add your Drive folder.") 400
       else
         exec updateRecording k (with_status uploading no_updates) then
         let buffer := payload in
         if (length buffer =? 0)%nat then
           exec updateRecording k (with_status error no_updates) then
           json (ErrorBody "Empty video file received") 400
         else
           let name := fileName (title recording) k in
           await result := uploadToDriveResumable o buffer name "video/webm"
                             (settings_folder settings) in
           exec updateRecording k
                  (with_fileSize (Z.of_nat (length buffer))
                     (with_status ready
                        (with_driveFileId (fileId result) no_updates))) then
           json (UploadedBody (fileId result) ready) 200
     end)
    (fun message =>
       exec try_catch (updateRecording k (with_status error no_updates))
                      (fun _ => ret tt) then
       json (ErrorBody message) 500).

(** [GET] of the same file, lines 105-128: the status check. *)
Definition GET_status (k : string) : M Response :=
  try_catch
    (await recording := getRecording k in
     match recording with
     | None => json (ErrorBody "Recording not found") 404
     | Some recording =>
         json (StatusBody (status recording) (driveFileId recording)) 200
     end)
    (fun _ => json (ErrorBody "Failed to check status") 500).

(** [POST] of [src/app/api/upload/[id]/transfer/route.ts], lines 14-104. *)
Definition POST_transfer (o : Oracle) (k : string) : M Response :=
  try_catch
    (await recording := getRecording k in
     match recording with
     | None => json (ErrorBody "Recording not found") 404
     | Some recording =>
       if negb (truthy_opt (gcsPath recording)) then
         json (ErrorBody "No upload found for this recording") 400
       else
         let path := default "" (gcsPath recording) in
         await exists_ := checkGcsFile path in
         if negb exists_ then
           exec updateRecording k (with_status error no_updates) then
           json (ErrorBody "Upload file not found. Please try recording again.") 404
         else
           await settings := getSettings in
           if negb (truthy (settings_folder settings)) then
             json (ErrorBody "Google Drive folder not configured") 400
           else
             exec updateRecording k (with_status uploading no_updates) then
             let name := fileName (title recording) k in
             await result := transferFromGcsToDrive o path name
                               (settings_folder settings) in
             exec updateRecording k
                    (with_gcsPath ""
                       (with_status ready
                          (with_driveFileId (fileId result) no_updates))) then
             json (UploadedBody (fileId result) ready) 200
     end)
    (fun message =>
       exec try_catch (updateRecording k (with_status error no_updates))
                      (fun _ => ret tt) then
       json (ErrorBody message) 500).

(** The JSON body of a creation request: [{ title, duration, fileSize }]. *)
Record CreateRequest : Type := mkCreateRequest {
  is_json : bool;                (* content-type includes application/json *)
  req_title : option string;
  req_duration : option Z;
  req_fileSize : option Z
}.

Definition title_or_default (t : option string) : string :=
  if truthy_opt t then default "" t else "Untitled Recording".

Definition number_or_zero (n : option Z) : Z := or_zero (default 0 n).

(** [uuidv4().slice(0, 8)]; the uuid is drawn by the caller of the model. *)
Definition short_id (uuid : string) : string := substring 0 8 uuid.

(** [POST] that creates a recording for the direct path: the entry has
    status processing and the folder of the current settings. *)
Definition POST_create (uuid : string) (req : CreateRequest) : M Response :=
  try_catch
    (if is_json req then
       await settings := getSettings in
       if negb (truthy (settings_folder settings)) then
         json (ErrorBody "Google Drive folder not configured. Please set up in Settings.") 400
       else
         let k := short_id uuid in
         await recording := createRecording
           {| id := k; title := title_or_default (req_title req);
              driveFileId := ""; driveFolderId := settings_folder settings;
              duration := number_or_zero (req_duration req);
              thumbnailUrl := None; status := processing;
              createdAt := 0; updatedAt := 0; viewCount := 0;
              fileSize := number_or_zero (req_fileSize req); gcsPath := None |} in
         json (CreatedBody recording ("/v/" +:+ k) ("/api/upload/" +:+ k) None) 200
     else json (ErrorBody "Invalid request") 400)
    (fun _ => json (ErrorBody "Upload failed") 500).

(** [POST] that creates a recording for the two-hop path: as above, and the
    entry carries the holding path of the signed URL. *)
Definition POST_create_signed (uuid signedUrl : string) (req : CreateRequest)
  : M Response :=
  try_catch
    (if is_json req then
       await settings := getSettings in
       if negb (truthy (settings_folder settings)) then
         json (ErrorBody "Google Drive folder not configured. Please set up in Settings.") 400
       else
         let k := short_id uuid in
         let path := upload_path k in
         await recording := createRecording
           {| id := k; title := title_or_default (req_title req);
              driveFileId := ""; driveFolderId := settings_folder settings;
              duration := number_or_zero (req_duration req);
              thumbnailUrl := None; status := processing;
              createdAt := 0; updatedAt := 0; viewCount := 0;
              fileSize := number_or_zero (req_fileSize req);
              gcsPath := Some path |} in
         json (CreatedBody recording ("/v/" +:+ k) signedUrl
                 (Some ("/api/upload/" +:+ k +:+ "/transfer"))) 200
     else json (ErrorBody "Invalid request") 400)
    (fun _ => json (ErrorBody "Upload failed") 500).

(** [GET] of one recording, optionally counting a view. *)
Definition GET_recording (k : string) (view : bool) : M Response :=
  try_catch
    (await recording := getRecording k in
     match recording with
     | None => json (ErrorBody "Recording not found") 404
     | Some recording =>
       exec (if view then incrementViewCount k else ret tt) then
       json (RecordingBody (Some recording)) 200
     end)
    (fun _ => json (ErrorBody "Failed to get recording") 500).

(** [PATCH] of one recording: only [title] is taken from the body. *)
Definition PATCH (k : string) (body_title : option string) : M Response :=
  try_catch
    (await recording := getRecording k in
     match recording with
     | None => json (ErrorBody "Recording not found") 404
     | Some _ =>
       let updates :=
         match body_title with
         | Some t => with_title t no_updates
         | None => no_updates
         end in
       exec updateRecording k updates then
       await updatedRecording := getRecording k in
       json (RecordingBody updatedRecording) 200
     end)
    (fun _ => json (ErrorBody "Failed to update recording") 500).

(** [DELETE] of one recording: Drive first, best effort, then the ledger. *)
Definition DELETE (drive_ok : bool) (k : string) : M Response :=
  try_catch
    (await recording := getRecording k in
     match recording with
     | None => json (ErrorBody "Recording not found") 404
     | Some recording =>
       exec (if truthy (driveFileId recording)
             then try_catch (deleteFromDrive drive_ok (driveFileId recording))
                            (fun _ => ret tt)
             else ret tt) then
       exec deleteRecording k then
       json SuccessBody 200
     end)
    (fun _ => json (ErrorBody "Failed to delete recording") 500).

(** ** Runs of the system: one request after the other *)

Inductive Request : Type :=
| ReqCreate (uuid : string) (req : CreateRequest)
| ReqCreateSigned (uuid signedUrl : string) (req : CreateRequest)
| ReqPut (o : Oracle) (k : string) (payload : list byte)
| ReqTransfer (o : Oracle) (k : string)
| ReqStatus (k : string)
| ReqGet (k : string) (view : bool)
| ReqPatch (k : string) (body_title : option string)
| ReqDelete (drive_ok : bool) (k : string)
| ReqSaveSettings (s : Settings)
| ReqClientUpload (path : string) (payload : list byte).

(** A client that holds a signed URL writes its payload into the bucket
    without going through any handler. *)
Definition client_upload (path : string) (payload : list byte) : M unit :=
  modify (fun w => set_bucket (<[path := payload]> (bucket w)) w).

Definition handle (r : Request) : M (option Response) :=
  match r with
  | ReqCreate uuid req => await x := POST_create uuid req in ret (Some x)
  | ReqCreateSigned uuid url req =>
      await x := POST_create_signed uuid url req in ret (Some x)
  | ReqPut o k payload => await x := PUT o k payload in ret (Some x)
  | ReqTransfer o k => await x := POST_transfer o k in ret (Some x)
  | ReqStatus k => await x := GET_status k in ret (Some x)
  | ReqGet k view => await x := GET_recording k view in ret (Some x)
  | ReqPatch k t => await x := PATCH k t in ret (Some x)
  | ReqDelete ok k => await x := DELETE ok k in ret (Some x)
  | ReqSaveSettings s => exec saveSettings s then ret None
  | ReqClientUpload path payload => exec client_upload path payload then ret None
  end.

Definition after (r : Request) (w : World) : World := snd (handle r w).

Definition run (rs : list Request) (w : World) : World :=
  fold_left (fun w r => after r w) rs w.

Definition empty_world : World := mkWorld ∅ None ∅ [] 0 [].

(** What a [files.create] call was given: name, parent folder, mime type and
    content.  [puts w] lists the calls that produced the files of [w]. *)
Definition put_record (f : DriveFile) : string * string * string * list byte :=
  (f_name f, f_parent f, f_mimeType f, f_bytes f).

Definition puts (w : World) : list (string * string * string * list byte) :=
  put_record <$> drive w.

(** The parent folders and the names of the files of Drive, oldest first. *)
Definition folders (w : World) : list string := f_parent <$> drive w.
Definition names (w : World) : list string := f_name <$> drive w.

(** The statuses written for document [k] by [update], in the order of the
    writes.  The [set] of a creation is not an update: it is not in the
    journal, and its status is read off the ledger. *)
Definition statuses_written (k : string) (j : list (string * Updates))
  : list Status :=
  omap (fun e => if String.eqb (fst e) k then u_status (snd e) else None) j.

(** The journal entries a run has added to those of [w]. *)
Definition new_entries (w w' : World) : list (string * Updates) :=
  drop (length (journal w)) (journal w').

Definition status_of (k : string) (w : World) : option Status :=
  status <$> recordings w !! k.

(** The last status written, or [d] when none was. *)
Definition last_or (d : option Status) (ws : list Status) : option Status :=
  match last ws with Some s => Some s | None => d end.
Arguments last_or : simpl never.











(** The Recording read back after an update. *)
Definition read_after_update (k : string) (u : Updates) (w : World)
  : option Recording :=
  match fst (getRecording k (snd (updateRecording k u w))) with
  | Ok r => r
  | Throw _ => None
  end.

(** ** Concurrent viewers

    [runTransaction] of Firestore is optimistic: the callback reads a
    snapshot, and the commit goes through only if the document is still the
    one that was read; otherwise the transaction is aborted and the callback
    is run again.  Several calls of [incrementViewCount] in flight are a pool
    of such transactions whose steps interleave in any order. *)

Inductive Call : Type :=
| Idle                                  (* callback not started, or to be re-run *)
| HasRead (snapshot : option Recording) (* [transaction.get] answered *)
| Done.                                 (* committed, the promise is resolved *)

Definition is_done (c : Call) : bool :=
  match c with Done => true | _ => false end.

Fixpoint count_done (cs : list Call) : nat :=
  match cs with
  | [] => 0
  | c :: cs => ((if is_done c then 1 else 0) + count_done cs)%nat
  end.

Inductive step (k : string) : World * list Call -> World * list Call -> Prop :=
| step_read w cs i :
    cs !! i = Some Idle ->
    step k (w, cs) (w, <[i := HasRead (recordings w !! k)]> cs)
| step_commit w cs i snapshot :
    cs !! i = Some (HasRead snapshot) ->
    recordings w !! k = snapshot ->
    step k (w, cs) (snd (transaction_commit k snapshot w), <[i := Done]> cs)
| step_abort w cs i snapshot :
    cs !! i = Some (HasRead snapshot) ->
    recordings w !! k <> snapshot ->
    step k (w, cs) (w, <[i := Idle]> cs).

(** The invariant of the pool: the stored count is the count [v0] at the
    start plus the number of calls that are done. *)
Definition counted (v0 : Z) (k : string) (c : World * list Call) : Prop :=
  exists r', recordings (fst c) !! k = Some r'
             /\ viewCount r' = v0 + Z.of_nat (count_done (snd c)).

(** ** Sample data *)

Definition demo_settings : Settings := mkSettings "F1" q1080p true false.
Definition other_settings : Settings := mkSettings "F2" q1080p true false.

Definition demo_request : CreateRequest :=
  mkCreateRequest true (Some "Demo") (Some 42) (Some 1024).

Definition demo_uuid : string := "abc12345-0000-4000-8000-000000000000".

Definition demo_recording : Recording :=
  {| id := "abc12345"; title := "Demo"; driveFileId := "";
     driveFolderId := "F1"; duration := 42; thumbnailUrl := None;
     status := processing; createdAt := 0; updatedAt := 0; viewCount := 0;
     fileSize := 1024; gcsPath := None |}.

Definition demo_signed_recording : Recording :=
  {| id := "abc12345"; title := "Demo"; driveFileId := "";
     driveFolderId := "F1"; duration := 42; thumbnailUrl := None;
     status := processing; createdAt := 0; updatedAt := 0; viewCount := 0;
     fileSize := 1024; gcsPath := Some "uploads/abc12345.webm" |}.

(** Settings saved, then a recording created for the direct path. *)
Definition demo_world : World :=
  run [ReqSaveSettings demo_settings; ReqCreate demo_uuid demo_request] empty_world.

(** Settings saved, then a recording created for the two-hop path. *)
Definition demo_signed_world : World :=
  run [ReqSaveSettings demo_settings;
       ReqCreateSigned demo_uuid "https://storage.example/signed" demo_request]
      empty_world.

(** The same, and the client has uploaded the holding object. *)
Definition demo_uploaded_world : World :=
  after (ReqClientUpload "uploads/abc12345.webm" ["x"%byte]) demo_signed_world.

(** The recording of [demo_world] after a successful direct upload. *)
Definition demo_ready_world : World :=
  after (ReqPut (mkOracle (Some "file-1") true true true) "abc12345" ["x"%byte])
    demo_world.

Definition demo_ready_recording : Recording :=
  {| id := "abc12345"; title := "Demo"; driveFileId := "file-1";
     driveFolderId := "F1"; duration := 42; thumbnailUrl := None;
     status := ready; createdAt := 0; updatedAt := 2; viewCount := 0;
     fileSize := 1; gcsPath := None |}.

Definition good_drive : Oracle := mkOracle (Some "file-1") true true true.
Definition failing_drive : Oracle := mkOracle None true true true.

(** ** The rest of the ledger and of the routes *)

(** The order of [orderBy('createdAt', 'desc')]: later first.  Among
    recordings created at the same time the order is the store's. *)
Definition newer_first (a b : string * Recording) : Prop :=
  createdAt (snd b) <= createdAt (snd a).

Global Instance newer_first_dec (a b : string * Recording) :
  Decision (newer_first a b).
Proof. unfold newer_first. apply _. Defined.

(** [listRecordings], [src/lib/firestore.ts] lines 133-149. *)
Definition listRecordings (limit : nat) : M (list Recording) :=
  await w := get_world in
  let docs := take limit (merge_sort newer_first (map_to_list (recordings w))) in
  ret ((fun doc => with_doc_id (fst doc) (snd doc)) <$> docs).

(** [getPreviewUrl] and [getStreamUrl] of [@/lib/drive]. *)
Definition getPreviewUrl (fid : string) : string :=
  "https://drive.google.com/file/d/" +:+ fid +:+ "/preview".

Definition getStreamUrl (fid : string) : string :=
  "https://drive.google.com/uc?export=download&id=" +:+ fid.

(** [VideoPage] of [src/app/v/[id]/page.tsx], lines 10-25: what the share
    link renders. *)
Inductive Page : Type :=
| NotFoundPage
| PlayerPage (recording : Recording) (videoUrl : option string).

Definition VideoPage (k : string) : M Page :=
  await recording := getRecording k in
  match recording with
  | None => ret NotFoundPage
  | Some recording =>
      exec incrementViewCount k then
      let videoUrl :=
        if truthy (driveFileId recording)
        then Some (getPreviewUrl (driveFileId recording))
        else None in
      ret (PlayerPage recording videoUrl)
  end.

(** [generateMetadata] of the same file, lines 27-41: the page title. *)
Definition generateMetadata (k : string) : M string :=
  await recording := getRecording k in
  match recording with
  | None => ret "Video Not Found"
  | Some recording => ret (title recording +:+ " | Kloom")
  end.

(** The earlier [PUT] of [/api/upload/[id]], second part of
    [src/app/api/upload/[id]/transfer/route.ts], lines 114-179: no check of
    the payload, and one error message for every failure. *)
Definition PUT_v1 (o : Oracle) (k : string) (payload : list byte) : M Response :=
  try_catch
    (await recording := getRecording k in
     match recording with
     | None => json (ErrorBody "Recording not found") 404
     | Some recording =>
       await settings := getSettings in
       if negb (truthy (settings_folder settings)) then
         json (ErrorBody "Google Drive folder not configured") 400
       else
         exec updateRecording k (with_status uploading no_updates) then
         let buffer := payload in
         let name := fileName (title recording) k in
         await result := uploadToDriveResumable o buffer name "video/webm"
                           (settings_folder settings) in
         exec updateRecording k
                (with_fileSize (Z.of_nat (length buffer))
                   (with_status ready
                      (with_driveFileId (fileId result) no_updates))) then
         json (UploadedBody (fileId result) ready) 200
     end)
    (fun _ =>
       exec try_catch (updateRecording k (with_status error no_updates))
                      (fun _ => ret tt) then
       json (ErrorBody "Upload failed") 500).

(** The answer of the [PUT] addressed by a query parameter:
    [{ success: true, driveFileId }] or [{ error }] with a status. *)
Inductive QueryReply : Type :=
| QueryUploaded (fid : string)
| QueryError (status_code : Z) (message : string).

(** [PUT] of [/api/upload?id=...], lines 63-116 of that route: no lookup of
    the recording, a fixed file name, and no ledger write in the [catch]. *)
Definition PUT_query (o : Oracle) (recordingId : option string)
    (payload : list byte) : M QueryReply :=
  try_catch
    (if negb (truthy_opt recordingId) then
       ret (QueryError 400 "Recording ID required")
     else
       let k := default "" recordingId in
       await settings := getSettings in
       if negb (truthy (settings_folder settings)) then
         ret (QueryError 400 "Google Drive folder not configured")
       else
         exec updateRecording k (with_status uploading no_updates) then
         let buffer := payload in
         let name := "recording_" +:+ k +:+ ".webm" in
         await result := uploadToDriveResumable o buffer name "video/webm"
                           (settings_folder settings) in
         exec updateRecording k
                (with_status ready
                   (with_driveFileId (fileId result) no_updates)) then
         ret (QueryUploaded (fileId result)))
    (fun _ => ret (QueryError 500 "Upload failed")).

(** [uploadInBackground] of [src/app/api/recordings/route.ts], lines 79-115.
    The [catch] writes the error status without a guard of its own. *)
Definition uploadInBackground (o : Oracle) (recordingId : string)
    (file : list byte) (title folderId : string) : M unit :=
  try_catch
    (exec updateRecording recordingId (with_status uploading no_updates) then
     let buffer := file in
     let name := fileName title recordingId in
     await result := uploadToDriveResumable o buffer name "video/webm" folderId in
     updateRecording recordingId
       (with_status ready (with_driveFileId (fileId result) no_updates)))
    (fun _ => updateRecording recordingId (with_status error no_updates)).

(** The upload that [POST /api/recordings] starts and does not await: the
    arguments of its call of [uploadInBackground]. *)
Record Job : Type := mkJob {
  job_id : string;
  job_file : list byte;
  job_title : string;
  job_folder : string
}.

Definition run_job (o : Oracle) (j : Job) : M unit :=
  uploadInBackground o (job_id j) (job_file j) (job_title j) (job_folder j).

Inductive Created : Type :=
| CreatedOk (recording : Recording) (shareUrl : string)
| CreatedError (status_code : Z) (message : string).

(** [POST] of [src/app/api/recordings/route.ts], lines 21-77.  [video] is
    the file of the form, if any; [duration] is what [parseInt] made of the
    duration field, [None] for NaN. *)
Definition POST_recordings (uuid : string) (video : option (list byte))
    (form_title : option string) (duration : option Z)
  : M (Created * option Job) :=
  try_catch
    (let title := title_or_default form_title in
     let duration := number_or_zero duration in
     match video with
     | None => ret (CreatedError 400 "No video file provided", None)
     | Some file =>
       await settings := getSettings in
       if negb (truthy (settings_folder settings)) then
         ret (CreatedError 400
                "Google Drive folder not configured. Please set up in Settings.",
              None)
       else
         let k := short_id uuid in
         await recording := createRecording
           {| id := k; title := title; driveFileId := "";
              driveFolderId := settings_folder settings; duration := duration;
              thumbnailUrl := None; status := processing;
              createdAt := 0; updatedAt := 0; viewCount := 0;
              fileSize := Z.of_nat (length file); gcsPath := None |} in
         ret (CreatedOk recording ("/v/" +:+ k),
              Some (mkJob k file title (settings_folder settings)))
     end)
    (fun _ => ret (CreatedError 500 "Failed to create recording", None)).

(** *** Settings route ([src/app/api/settings/route.ts]) *)

(** The class [[a-zA-Z0-9_-]]. *)
Definition is_id_char (c : ascii) : bool :=
  is_alnum c || Ascii.eqb c "_" || Ascii.eqb c "-".

(** The longest run of class characters at the head of [s]: [([a-zA-Z0-9_-]+)]
    when it is not empty. *)
Fixpoint id_run (s : string) : string :=
  match s with
  | String c rest => if is_id_char c then String c (id_run rest) else EmptyString
  | EmptyString => EmptyString
  end.

(** What is left of [s] after the literal [p], when [s] starts with [p]. *)
Fixpoint after_prefix (p s : string) : option string :=
  match p, s with
  | EmptyString, _ => Some s
  | String a p', String b s' => if Ascii.eqb a b then after_prefix p' s' else None
  | String _ _, EmptyString => None
  end.

(** [s.match(/<p>([a-zA-Z0-9_-]+)/)]: the capture of the leftmost match. *)
Fixpoint match_id_after (p s : string) : option string :=
  let here :=
    match after_prefix p s with
    | Some tail => if truthy (id_run tail) then Some (id_run tail) else None
    | None => None
    end in
  match here, s with
  | Some capture, _ => Some capture
  | None, String _ rest => match_id_after p rest
  | None, EmptyString => None
  end.

(** Lines 40-55: the folder id taken out of what the user typed. *)
Definition extract_folder_id (driveFolderId : string) : string :=
  let folderId := driveFolderId in
  let folderMatch := match_id_after "folders/" driveFolderId in
  let folderId :=
    match folderMatch with Some capture => capture | None => folderId end in
  let shareMatch := match_id_after "/folders/" driveFolderId in
  match shareMatch, folderMatch with
  | Some capture, None => capture
  | _, _ => folderId
  end.

Record SettingsBody : Type := mkSettingsBody {
  body_driveFolderId : option string;
  body_defaultQuality : option Quality;
  body_defaultMicEnabled : option bool;
  body_defaultWebcamEnabled : option bool
}.

Inductive SettingsReply : Type :=
| SettingsOk (settings : Settings)
| SettingsError (status_code : Z) (message : string).

(** [GET], lines 6-24: the stored settings, or the defaults. *)
Definition GET_settings : M SettingsReply :=
  try_catch
    (await settings := getSettings in
     ret (SettingsOk
            (match settings with
             | Some s => s
             | None => mkSettings "" q1080p true false
             end)))
    (fun _ => ret (SettingsError 500 "Failed to get settings")).

(** [POST], lines 27-86.  [has_access] is the answer of
    [verifyFolderAccess] for a folder id. *)
Definition POST_settings (has_access : string -> bool) (body : SettingsBody)
  : M SettingsReply :=
  try_catch
    (if negb (truthy_opt (body_driveFolderId body)) then
       ret (SettingsError 400 "Google Drive folder ID is required")
     else
       let folderId := extract_folder_id (default "" (body_driveFolderId body)) in
       if negb (has_access folderId) then
         ret (SettingsError 400
                "Cannot access the specified Google Drive folder. Please ensure the folder exists and the service account has access.")
       else
         let settings :=
           mkSettings folderId
             (default q1080p (body_defaultQuality body))
             (default true (body_defaultMicEnabled body))
             (default false (body_defaultWebcamEnabled body)) in
         exec saveSettings settings then
         ret (SettingsOk settings))
    (fun _ => ret (SettingsError 500 "Failed to save settings")).

(** *** The badge of the dashboard *)

Inductive Badge : Type :=
| BadgeFailed | BadgeReady | BadgeUploading | BadgeProcessing | BadgeError.

(** [getStatusBadge] of the dashboard
    ([src/components/RecordingControls.tsx], lines 459-480): an entry still
    in processing or uploading more than ten minutes after its creation is
    shown as failed; the ledger is not touched. *)
Definition getStatusBadge (now : Date) (recording : Recording) : Badge :=
  let isStuck :=
    (bool_decide (status recording = processing)
     || bool_decide (status recording = uploading))
    && (10 * 60 * 1000 <? now - createdAt recording)%Z in
  if isStuck then BadgeFailed
  else match status recording with
       | ready => BadgeReady
       | uploading => BadgeUploading
       | processing => BadgeProcessing
       | error => BadgeError
       end.

(** ** Vocabulary of the further properties *)

(** The record [createRecording] stores and returns. *)
Definition created_from (recording : Recording) (now : Date) : Recording :=
  {| id := id recording; title := title recording;
     driveFileId := driveFileId recording;
     driveFolderId := driveFolderId recording;
     duration := duration recording; thumbnailUrl := thumbnailUrl recording;
     status := status recording; createdAt := now; updatedAt := now;
     viewCount := 0; fileSize := fileSize recording;
     gcsPath := gcsPath recording |}.

(** The record after one counted view at time [now]. *)
Definition viewed (r : Recording) (now : Date) : Recording :=
  {| id := id r; title := title r; driveFileId := driveFileId r;
     driveFolderId := driveFolderId r; duration := duration r;
     thumbnailUrl := thumbnailUrl r; status := status r;
     createdAt := createdAt r; updatedAt := now;
     viewCount := viewCount r + 1; fileSize := fileSize r;
     gcsPath := gcsPath r |}.

(** [n] calls of [incrementViewCount], one after the other. *)
Definition view_times (n : nat) (k : string) (w : World) : World :=
  Nat.iter n (fun w => snd (incrementViewCount k w)) w.

(** The entry a creation stores at time [now]. *)
Definition new_entry (k : string) (req : CreateRequest) (folder : string)
    (path : option string) (now : Date) : Recording :=
  {| id := k; title := title_or_default (req_title req); driveFileId := "";
     driveFolderId := folder; duration := number_or_zero (req_duration req);
     thumbnailUrl := None; status := processing; createdAt := now;
     updatedAt := now; viewCount := 0;
     fileSize := number_or_zero (req_fileSize req); gcsPath := path |}.

(** Drive answers every call of one run, handing out [fid]. *)
Definition drive_answers (o : Oracle) (fid : string) : Prop :=
  create_reply o = Some fid /\ permission_ok o = true /\ get_ok o = true.

(** One of the Drive calls of the run throws. *)
Definition drive_fails (o : Oracle) : Prop :=
  create_reply o = None \/ permission_ok o = false \/ get_ok o = false.

(** The record after a direct upload that ended at time [now]. *)
Definition uploaded (r : Recording) (fid : string) (size : Z) (now : Date)
  : Recording :=
  {| id := id r; title := title r; driveFileId := fid;
     driveFolderId := driveFolderId r; duration := duration r;
     thumbnailUrl := thumbnailUrl r; status := ready;
     createdAt := createdAt r; updatedAt := now; viewCount := viewCount r;
     fileSize := size; gcsPath := gcsPath r |}.

(** The record after a run that failed at time [now]. *)
Definition failed (r : Recording) (now : Date) : Recording :=
  {| id := id r; title := title r; driveFileId := driveFileId r;
     driveFolderId := driveFolderId r; duration := duration r;
     thumbnailUrl := thumbnailUrl r; status := error;
     createdAt := createdAt r; updatedAt := now; viewCount := viewCount r;
     fileSize := fileSize r; gcsPath := gcsPath r |}.

(** The record after a transfer that ended at time [now]. *)
Definition transferred (r : Recording) (fid : string) (now : Date) : Recording :=
  {| id := id r; title := title r; driveFileId := fid;
     driveFolderId := driveFolderId r; duration := duration r;
     thumbnailUrl := thumbnailUrl r; status := ready;
     createdAt := createdAt r; updatedAt := now; viewCount := viewCount r;
     fileSize := fileSize r; gcsPath := Some "" |}.

(** The recording has a holding path, an object lies there, and a
    destination folder is configured. *)
Definition transfer_ready (k : string) (w : World) (r : Recording)
    (path : string) (content : list byte) : Prop :=
  recordings w !! k = Some r /\ gcsPath r = Some path /\ truthy path = true
  /\ bucket w !! path = Some content
  /\ truthy (settings_folder (user_settings w)) = true.

(** The record once it is marked as uploading at time [now]. *)
Definition marked_uploading (r : Recording) (now : Date) : Recording :=
  {| id := id r; title := title r; driveFileId := driveFileId r;
     driveFolderId := driveFolderId r; duration := duration r;
     thumbnailUrl := thumbnailUrl r; status := uploading;
     createdAt := createdAt r; updatedAt := now; viewCount := viewCount r;
     fileSize := fileSize r; gcsPath := gcsPath r |}.

(** Every character of [s] is in [[a-zA-Z0-9_-]]. *)
Fixpoint all_id_chars (s : string) : bool :=
  match s with
  | EmptyString => true
  | String c rest => is_id_char c && all_id_chars rest
  end.

(** No character of [s] is an 'f'. *)
Fixpoint no_f (s : string) : bool :=
  match s with
  | EmptyString => true
  | String c rest => negb (Ascii.eqb c "f") && no_f rest
  end.

(** What [listRecordings] returns, as a list. *)
Definition listed (limit : nat) (w : World) : list Recording :=
  match fst (listRecordings limit w) with
  | Ok l => l
  | Throw _ => []
  end.

Definition creates (r : Request) : bool :=
  match r with
  | ReqCreate _ _ | ReqCreateSigned _ _ _ => true
  | _ => false
  end.

(** The fields stamped at creation are those of [r0], and the view count is
    not below that of [r0]. *)
Definition stamped_kept (r0 r' : Recording) : Prop :=
  id r' = id r0 /\ createdAt r' = createdAt r0
  /\ driveFolderId r' = driveFolderId r0 /\ duration r' = duration r0
  /\ thumbnailUrl r' = thumbnailUrl r0 /\ viewCount r0 <= viewCount r'.

Definition entry_kept (before after : option Recording) : Prop :=
  match before, after with
  | None, x => x = None
  | Some _, None => True
  | Some r0, Some r' => stamped_kept r0 r'
  end.


(** ** Every handler that writes to the ledger *)

(** The handlers of the source that call [createRecording],
    [updateRecording], [deleteRecording] or [incrementViewCount], those of
    the earlier route files included, and the saving of the settings. *)
Inductive Action : Type :=
| ActRequest (r : Request)
| ActPutV1 (o : Oracle) (k : string) (payload : list byte)
| ActPutQuery (o : Oracle) (recordingId : option string) (payload : list byte)
| ActCreateWithFile (uuid : string) (video : option (list byte))
    (form_title : option string) (duration : option Z)
| ActBackgroundUpload (o : Oracle) (j : Job)
| ActVideoPage (k : string)
| ActPostSettings (has_access : string -> bool) (body : SettingsBody).

Definition perform (a : Action) (w : World) : World :=
  match a with
  | ActRequest r => after r w
  | ActPutV1 o k payload => snd (PUT_v1 o k payload w)
  | ActPutQuery o recordingId payload => snd (PUT_query o recordingId payload w)
  | ActCreateWithFile uuid video form_title duration =>
      snd (POST_recordings uuid video form_title duration w)
  | ActBackgroundUpload o j => snd (run_job o j w)
  | ActVideoPage k => snd (VideoPage k w)
  | ActPostSettings has_access body => snd (POST_settings has_access body w)
  end.

Definition perform_all (acts : list Action) (w : World) : World :=
  fold_left (fun w a => perform a w) acts w.

(** [uuidv4()] returns 36 characters; that it returns at least the 8 that
    [slice(0, 8)] keeps is all that is used. *)
Definition uuid_ok (a : Action) : bool :=
  match a with
  | ActRequest (ReqCreate uuid _)
  | ActRequest (ReqCreateSigned uuid _ _)
  | ActCreateWithFile uuid _ _ _ => (8 <=? String.length uuid)%nat
  | _ => true
  end.

(** The characters of the class [[a-zA-Z0-9]], one by one. *)
Definition alnum_chars : string :=
  "abcdefghijklmnopqrstuvwxyzABCDEFGHIJKLMNOPQRSTUVWXYZ0123456789".

Definition in_alnum_chars (c : ascii) : bool :=
  existsb (Ascii.eqb c) (list_ascii_of_string alnum_chars).

(** The id a handler is called for, when it is one that creates, uploads or
    deletes: the only handlers that change a status. *)
Definition target (a : Action) : option string :=
  match a with
  | ActRequest (ReqCreate uuid _) | ActRequest (ReqCreateSigned uuid _ _)
  | ActCreateWithFile uuid _ _ _ => Some (short_id uuid)
  | ActRequest (ReqPut _ k _) | ActRequest (ReqTransfer _ k)
  | ActRequest (ReqDelete _ k) | ActPutV1 _ k _ => Some k
  | ActPutQuery _ recordingId _ => recordingId
  | ActBackgroundUpload _ j => Some (job_id j)
  | ActRequest (ReqStatus _) | ActRequest (ReqGet _ _)
  | ActRequest (ReqPatch _ _) | ActRequest (ReqSaveSettings _)
  | ActRequest (ReqClientUpload _ _) | ActVideoPage _
  | ActPostSettings _ _ => None
  end.

(** Every id of the ledger has the 8 characters of [uuidv4().slice(0, 8)]. *)
Definition short_ids (w : World) : Prop :=
  forall k r, recordings w !! k = Some r -> String.length k = 8%nat.


(** * Properties *)

(** ** Running the monad symbolically *)

Ltac mrun :=
  cbv beta iota delta
    [bind try_catch ret throw get_world modify json new_Date
     updateRecording firestore_update getRecording getSettings
     checkGcsFile gcs_download gcs_delete deleteRecording
     drive_files_create drive_permissions_create drive_files_get
     uploadToDriveResumable transferFromGcsToDrive deleteFromDrive
     createRecording saveSettings client_upload incrementViewCount
     transaction_get transaction_commit incrementViewCount_body
     set_recordings set_user_settings set_bucket set_drive set_clock
     set_journal];
  simpl.

Lemma or_zero_id (a : Z) : or_zero a = a.
Proof. unfold or_zero. destruct (Z.eqb_spec a 0); congruence. Qed.

Lemma new_entries_nil (w : World) r s b d c :
  new_entries w (mkWorld r s b d c (journal w)) = [].
Proof. unfold new_entries. simpl. apply drop_all. Qed.

Lemma new_entries_same (w : World) : new_entries w w = [].
Proof. unfold new_entries. apply drop_all. Qed.

Lemma new_entries_app (w : World) r s b d c l :
  new_entries w (mkWorld r s b d c (journal w ++ l)) = l.
Proof. unfold new_entries. simpl. by rewrite drop_app_length. Qed.

Lemma new_entries_app2 (w : World) r s b d c l1 l2 :
  new_entries w (mkWorld r s b d c ((journal w ++ l1) ++ l2)) = (l1 ++ l2)%list.
Proof. rewrite <- app_assoc. apply new_entries_app. Qed.

Lemma updateRecording_Some (k : string) (u : Updates) (w : World) (r : Recording) :
  recordings w !! k = Some r ->
  updateRecording k u w =
    (Ok tt,
     mkWorld (<[k := merge_fields r (with_updatedAt (clock w) u)]> (recordings w))
       (user_settings w) (bucket w) (drive w) (clock w + 1)
       (journal w ++ [(k, with_updatedAt (clock w) u)])).
Proof.
  intros H. mrun. rewrite H.
  destruct u as [a b c d e f g [h|] i j l m]; reflexivity.
Qed.

Lemma updateRecording_None (k : string) (u : Updates) (w : World) :
  recordings w !! k = None ->
  updateRecording k u w =
    (Throw "NOT_FOUND: No document to update",
     mkWorld (recordings w) (user_settings w) (bucket w) (drive w)
       (clock w + 1) (journal w)).
Proof. intros H. mrun. by rewrite H. Qed.

Ltac written :=
  rewrite ?new_entries_app2, ?new_entries_app, ?new_entries_nil,
    ?new_entries_same;
  unfold statuses_written; simpl; rewrite ?String.eqb_refl; simpl.

(** ** Empty payload on the direct path *)

(** C7. For an existing Recording and a configured destination folder, a
    direct upload with an empty payload is answered 400 "Empty video file
    received"; the ledger goes to uploading and then to error before the
    handler returns, and nothing is put into the final store. *)
Theorem put_empty_payload_rejected
    (o : Oracle) (k : string) (w : World) (r : Recording) :
  recordings w !! k = Some r ->
  truthy (settings_folder (user_settings w)) = true ->
  fst (PUT o k [] w) = Ok (mkResponse 400 (ErrorBody "Empty video file received"))
  /\ status_of k (snd (PUT o k [] w)) = Some error
  /\ statuses_written k (new_entries w (snd (PUT o k [] w))) = [uploading; error]
  /\ drive (snd (PUT o k [] w)) = drive w.
Proof.
  intros Hr Hs. unfold PUT, status_of. mrun.
  rewrite Hr. simpl. rewrite Hs. simpl. rewrite Hr. simpl.
  rewrite lookup_insert_eq. simpl.
  repeat split.
  - by rewrite lookup_insert_eq.
  - by written.
Qed.

Lemma put_empty_payload_rejected_witness :
  fst (PUT good_drive "abc12345" [] demo_world)
    = Ok (mkResponse 400 (ErrorBody "Empty video file received"))
  /\ status_of "abc12345" (snd (PUT good_drive "abc12345" [] demo_world)) = Some error
  /\ statuses_written "abc12345"
       (new_entries demo_world (snd (PUT good_drive "abc12345" [] demo_world)))
     = [uploading; error]
  /\ drive (snd (PUT good_drive "abc12345" [] demo_world)) = drive demo_world.
Proof.
  apply (put_empty_payload_rejected good_drive "abc12345" demo_world demo_recording).
  - vm_compute. reflexivity.
  - vm_compute. reflexivity.
Defined.

(** ** Transfer trigger without the holding object *)

(** C3. When the Recording has a holding path and no object lies at that
    path, the transfer trigger answers 404 "Upload file not found", writes
    the single status error, and leaves Drive and the bucket untouched. *)
Theorem transfer_missing_object
    (o : Oracle) (k : string) (w : World) (r : Recording) (path : string) :
  recordings w !! k = Some r ->
  gcsPath r = Some path ->
  truthy path = true ->
  bucket w !! path = None ->
  fst (POST_transfer o k w)
    = Ok (mkResponse 404 (ErrorBody "Upload file not found. Please try recording again."))
  /\ status_of k (snd (POST_transfer o k w)) = Some error
  /\ statuses_written k (new_entries w (snd (POST_transfer o k w))) = [error]
  /\ drive (snd (POST_transfer o k w)) = drive w
  /\ bucket (snd (POST_transfer o k w)) = bucket w.
Proof.
  intros Hr Hp Ht Hb. unfold POST_transfer, status_of. mrun.
  rewrite Hr. simpl. rewrite Hp. simpl. rewrite Ht. simpl. rewrite Hb.
  simpl. rewrite Hr. simpl.
  repeat split.
  - by rewrite lookup_insert_eq.
  - by written.
Qed.

Lemma transfer_missing_object_witness :
  fst (POST_transfer good_drive "abc12345" demo_signed_world)
    = Ok (mkResponse 404 (ErrorBody "Upload file not found. Please try recording again."))
  /\ status_of "abc12345" (snd (POST_transfer good_drive "abc12345" demo_signed_world))
     = Some error
  /\ statuses_written "abc12345"
       (new_entries demo_signed_world
          (snd (POST_transfer good_drive "abc12345" demo_signed_world))) = [error]
  /\ drive (snd (POST_transfer good_drive "abc12345" demo_signed_world))
     = drive demo_signed_world
  /\ bucket (snd (POST_transfer good_drive "abc12345" demo_signed_world))
     = bucket demo_signed_world.
Proof.
  apply (transfer_missing_object good_drive "abc12345" demo_signed_world
           demo_signed_recording "uploads/abc12345.webm");
    vm_compute; reflexivity.
Defined.

(** Case analysis along the control flow of a handler. *)
Ltac mauto :=
  repeat first
    [ progress simpl in *
    | rewrite lookup_insert_eq
    | match goal with
      | H : <[?k := _]> _ !! ?k = None |- _ =>
          rewrite lookup_insert_eq in H; discriminate
      | H : <[?k := _]> _ !! ?k = Some _ |- _ =>
          rewrite lookup_insert_eq in H
      end
    | progress simplify_eq
    | case_match ].

(** ** Re-invoking the transfer trigger *)

Lemma transfer_falsy_path (o : Oracle) (k : string) (w : World) (r : Recording) :
  recordings w !! k = Some r ->
  truthy_opt (gcsPath r) = false ->
  POST_transfer o k w
    = (Ok (mkResponse 400 (ErrorBody "No upload found for this recording")), w).
Proof.
  intros Hr Hp. unfold POST_transfer. mrun. rewrite Hr. simpl. by rewrite Hp.
Qed.

Lemma transfer_success_state
    (o : Oracle) (k : string) (w : World) (resp : Response) :
  fst (POST_transfer o k w) = Ok resp ->
  code resp = 200 ->
  exists r', recordings (snd (POST_transfer o k w)) !! k = Some r'
             /\ status r' = ready /\ gcsPath r' = Some "".
Proof.
  unfold POST_transfer. mrun. mauto; intros; simplify_eq; eauto.
Qed.

(** C5. After a transfer trigger that answered 200, the Recording is ready
    with its holding path cleared, and a second trigger (whatever Drive would
    answer) returns 400 "No upload found for this recording" and leaves the
    whole world as it was: no download, no put into Drive, no ledger write. *)
Theorem transfer_retrigger_fails
    (o o' : Oracle) (k : string) (w : World) (resp : Response) :
  fst (POST_transfer o k w) = Ok resp ->
  code resp = 200 ->
  status_of k (snd (POST_transfer o k w)) = Some ready
  /\ gcsPath <$> recordings (snd (POST_transfer o k w)) !! k = Some (Some "")
  /\ POST_transfer o' k (snd (POST_transfer o k w))
     = (Ok (mkResponse 400 (ErrorBody "No upload found for this recording")),
        snd (POST_transfer o k w)).
Proof.
  intros Hres Hcode.
  destruct (transfer_success_state o k w resp Hres Hcode) as (r' & Hr' & Hs & Hg).
  unfold status_of. rewrite Hr'. simpl. rewrite Hs, Hg.
  repeat split.
  apply transfer_falsy_path with r'; [exact Hr' | by rewrite Hg].
Qed.

Lemma transfer_retrigger_fails_witness :
  status_of "abc12345" (snd (POST_transfer good_drive "abc12345" demo_uploaded_world))
    = Some ready
  /\ gcsPath <$> recordings
       (snd (POST_transfer good_drive "abc12345" demo_uploaded_world)) !! "abc12345"
     = Some (Some "")
  /\ POST_transfer good_drive "abc12345"
       (snd (POST_transfer good_drive "abc12345" demo_uploaded_world))
     = (Ok (mkResponse 400 (ErrorBody "No upload found for this recording")),
        snd (POST_transfer good_drive "abc12345" demo_uploaded_world)).
Proof.
  apply (transfer_retrigger_fails good_drive good_drive "abc12345"
           demo_uploaded_world (mkResponse 200 (UploadedBody "file-1" ready))).
  - vm_compute. reflexivity.
  - reflexivity.
Defined.

(** ** View counting on an unknown id *)

Lemma deleteRecording_absent (k : string) (w : World) :
  recordings w !! k = None -> deleteRecording k w = (Ok tt, w).
Proof.
  intros Hk. mrun. rewrite (delete_id _ _ Hk). by destruct w.
Qed.

(** C10, amended. For an id absent from the ledger, [incrementViewCount]
    resolves without error and leaves the world as it was.  At the level of
    the ledger [deleteRecording] does the same, and [getRecording] answers
    null without raising; only [updateRecording] is rejected, with
    NOT_FOUND.  Not-found is surfaced by the endpoints: GET, PATCH and
    DELETE answer 404 "Recording not found" and change nothing. *)
Theorem incrementViewCount_absent_noop (k : string) (w : World) :
  recordings w !! k = None ->
  incrementViewCount k w = (Ok tt, w)
  /\ deleteRecording k w = (Ok tt, w)
  /\ getRecording k w = (Ok None, w)
  /\ (forall u, fst (updateRecording k u w)
                = Throw "NOT_FOUND: No document to update")
  /\ (forall view, GET_recording k view w
                   = (Ok (mkResponse 404 (ErrorBody "Recording not found")), w))
  /\ (forall t, PATCH k t w
                = (Ok (mkResponse 404 (ErrorBody "Recording not found")), w))
  /\ (forall ok, DELETE ok k w
                 = (Ok (mkResponse 404 (ErrorBody "Recording not found")), w)).
Proof.
  intros Hk. split; [|split; [by apply deleteRecording_absent|]];
    repeat split; intros;
    unfold GET_recording, PATCH, DELETE; mrun; by rewrite Hk.
Qed.

Lemma incrementViewCount_absent_noop_witness :
  incrementViewCount "zzzzzzzz" demo_world = (Ok tt, demo_world)
  /\ deleteRecording "zzzzzzzz" demo_world = (Ok tt, demo_world)
  /\ getRecording "zzzzzzzz" demo_world = (Ok None, demo_world)
  /\ (forall u, fst (updateRecording "zzzzzzzz" u demo_world)
                = Throw "NOT_FOUND: No document to update")
  /\ (forall view, GET_recording "zzzzzzzz" view demo_world
                   = (Ok (mkResponse 404 (ErrorBody "Recording not found")), demo_world))
  /\ (forall t, PATCH "zzzzzzzz" t demo_world
                = (Ok (mkResponse 404 (ErrorBody "Recording not found")), demo_world))
  /\ (forall ok, DELETE ok "zzzzzzzz" demo_world
                 = (Ok (mkResponse 404 (ErrorBody "Recording not found")), demo_world)).
Proof.
  apply (incrementViewCount_absent_noop "zzzzzzzz" demo_world).
  vm_compute. reflexivity.
Defined.

(** C10, as stated, fails for delete: on an id that is not in the ledger
    [deleteRecording] resolves and changes nothing, as [incrementViewCount]
    does; it surfaces no not-found. *)
Lemma deleteRecording_unknown_silent :
  recordings demo_world !! "zzzzzzzz" = None
  /\ deleteRecording "zzzzzzzz" demo_world = (Ok tt, demo_world)
  /\ incrementViewCount "zzzzzzzz" demo_world = (Ok tt, demo_world).
Proof. vm_compute. repeat split; reflexivity. Qed.

(** ** What [updateRecording] may change *)

(** C8, as stated, fails: an update that carries [createdAt] overwrites the
    stored creation time (here 0 becomes 999). *)
Lemma update_overwrites_createdAt :
  createdAt <$> recordings demo_world !! "abc12345" = Some 0
  /\ createdAt <$> read_after_update "abc12345" (with_createdAt 999 no_updates) demo_world
     = Some 999.
Proof. vm_compute. split; reflexivity. Qed.

Lemma PATCH_Some (k : string) (t : option string) (w : World) (r : Recording) :
  recordings w !! k = Some r ->
  exists r',
    fst (PATCH k t w) = Ok (mkResponse 200 (RecordingBody (Some r')))
    /\ id r' = k /\ createdAt r' = createdAt r
    /\ title r' = default (title r) t.
Proof.
  intros Hr. unfold PATCH. mrun. rewrite Hr. simpl. rewrite Hr. simpl.
  rewrite lookup_insert_eq. simpl. eexists. split; [reflexivity|].
  by destruct t.
Qed.

(** C8, amended. For an existing id, [updateRecording] succeeds, merges the
    given fields and sets [updatedAt] to the time of the call whatever the
    caller passed for it; the [id] read back is the document key whatever the
    caller passed as [id]; [createdAt] is kept when the caller passes none and
    replaced by the caller's value otherwise.  The PATCH endpoint forwards
    only [title], so the Recording it answers with has the same [id] and
    [createdAt] as before. *)
Theorem updateRecording_frame
    (k : string) (u : Updates) (w : World) (r : Recording) :
  recordings w !! k = Some r ->
  fst (updateRecording k u w) = Ok tt
  /\ read_after_update k u w
     = Some (with_doc_id k (merge_fields r (with_updatedAt (clock w) u)))
  /\ id <$> read_after_update k u w = Some k
  /\ updatedAt <$> read_after_update k u w = Some (clock w)
  /\ createdAt <$> read_after_update k u w
     = Some (default (createdAt r) (u_createdAt u))
  /\ (forall t, exists r',
        fst (PATCH k t w) = Ok (mkResponse 200 (RecordingBody (Some r')))
        /\ id r' = k /\ createdAt r' = createdAt r
        /\ title r' = default (title r) t).
Proof.
  intros Hr. unfold read_after_update.
  rewrite (updateRecording_Some k u w r Hr). mrun.
  rewrite lookup_insert_eq. simpl.
  split; [reflexivity|]. split; [reflexivity|]. split; [reflexivity|].
  split; [reflexivity|]. split; [reflexivity|].
  intros t. by apply PATCH_Some.
Qed.

Lemma updateRecording_frame_witness :
  fst (updateRecording "abc12345" (with_title "Renamed" no_updates) demo_world) = Ok tt
  /\ id <$> read_after_update "abc12345" (with_title "Renamed" no_updates) demo_world
     = Some "abc12345"
  /\ createdAt <$> read_after_update "abc12345" (with_title "Renamed" no_updates) demo_world
     = Some 0.
Proof.
  destruct (updateRecording_frame "abc12345" (with_title "Renamed" no_updates)
              demo_world demo_recording) as (H1 & _ & H3 & _ & H5 & _).
  - vm_compute. reflexivity.
  - exact (conj H1 (conj H3 H5)).
Defined.

(** ** What is put into Drive: file name and folder *)

Lemma make_public_puts (fid : string) (l : list DriveFile) :
  put_record <$> (make_public fid <$> l) = put_record <$> l.
Proof.
  rewrite <- list_fmap_compose. apply list_fmap_ext. intros i f _.
  unfold compose, make_public. by destruct (String.eqb (f_id f) fid).
Qed.

Lemma PUT_puts (o : Oracle) (k : string) (payload : list byte) (w : World) :
  puts (snd (PUT o k payload w)) = puts w
  \/ exists r, recordings w !! k = Some r
       /\ puts (snd (PUT o k payload w))
          = (puts w ++ [(fileName (title r) k, settings_folder (user_settings w),
                         "video/webm", payload)])%list.
Proof.
  unfold PUT, puts. mrun. mauto;
    rewrite ?make_public_puts, ?fmap_app; simpl; eauto.
Qed.

Lemma POST_transfer_puts (o : Oracle) (k : string) (w : World) :
  puts (snd (POST_transfer o k w)) = puts w
  \/ exists r path buffer,
       recordings w !! k = Some r /\ gcsPath r = Some path
       /\ bucket w !! path = Some buffer
       /\ puts (snd (POST_transfer o k w))
          = (puts w ++ [(fileName (title r) k, settings_folder (user_settings w),
                         "video/webm", buffer)])%list.
Proof.
  unfold POST_transfer, puts. mrun. mauto;
    rewrite ?make_public_puts, ?fmap_app; simpl; eauto;
    match goal with
    | H : negb (truthy_opt (gcsPath ?r)) = false |- _ =>
        destruct (gcsPath r) eqn:?; simpl in *; [|discriminate]
    end;
    right; eexists _, _, _; eauto.
Qed.

Lemma PUT_driveFolderId (o : Oracle) (k : string) (payload : list byte) (w : World) :
  driveFolderId <$> recordings (snd (PUT o k payload w)) !! k
  = driveFolderId <$> recordings w !! k.
Proof.
  unfold PUT. mrun. mauto;
    repeat match goal with H : recordings _ !! _ = _ |- _ => rewrite H end;
    try reflexivity.
Qed.

Lemma POST_transfer_driveFolderId (o : Oracle) (k : string) (w : World) :
  driveFolderId <$> recordings (snd (POST_transfer o k w)) !! k
  = driveFolderId <$> recordings w !! k.
Proof.
  unfold POST_transfer. mrun. mauto;
    repeat match goal with H : recordings _ !! _ = _ |- _ => rewrite H end;
    try reflexivity.
Qed.

Lemma folders_puts (w : World) :
  folders w = (fun p => snd (fst (fst p))) <$> puts w.
Proof. unfold folders, puts. by rewrite <- list_fmap_compose. Qed.

Lemma names_puts (w : World) :
  names w = (fun p => fst (fst (fst p))) <$> puts w.
Proof. unfold names, puts. by rewrite <- list_fmap_compose. Qed.

Lemma POST_create_folder (uuid : string) (req : CreateRequest) (w : World) :
  (exists msg, fst (POST_create uuid req w) = Ok (mkResponse 400 (ErrorBody msg)))
  \/ driveFolderId <$> recordings (snd (POST_create uuid req w)) !! short_id uuid
     = Some (settings_folder (user_settings w)).
Proof.
  unfold POST_create. mrun. mauto; eauto.
Qed.

Lemma POST_create_signed_folder
    (uuid url : string) (req : CreateRequest) (w : World) :
  (exists msg, fst (POST_create_signed uuid url req w)
               = Ok (mkResponse 400 (ErrorBody msg)))
  \/ driveFolderId <$> recordings (snd (POST_create_signed uuid url req w))
                         !! short_id uuid
     = Some (settings_folder (user_settings w)).
Proof.
  unfold POST_create_signed. mrun. mauto; eauto.
Qed.

(** C4, as stated, fails: the folder stamped into the Recording at creation
    is "F1"; the Settings are then edited to "F2"; the direct upload puts the
    file into "F2" while the Recording still says "F1". *)
Lemma upload_ignores_captured_folder :
  driveFolderId <$> recordings demo_world !! "abc12345" = Some "F1"
  /\ folders (run [ReqSaveSettings other_settings;
                   ReqPut good_drive "abc12345" ["x"%byte]] demo_world) = ["F2"]
  /\ driveFolderId <$>
       recordings (run [ReqSaveSettings other_settings;
                        ReqPut good_drive "abc12345" ["x"%byte]] demo_world)
         !! "abc12345" = Some "F1".
Proof. vm_compute. repeat split; reflexivity. Qed.

(** C4, amended. Creation stamps the destination folder of the Settings of
    that moment into the Recording, and neither the direct upload nor the
    transfer trigger changes that field; but the folder handed to Drive by
    the direct upload and by the transfer trigger is the one found in the
    Settings when the upload or the trigger runs, not the stamped one. *)
Theorem upload_folder_is_current_setting (w : World) :
  (forall uuid req,
     (exists msg, fst (POST_create uuid req w) = Ok (mkResponse 400 (ErrorBody msg)))
     \/ driveFolderId <$> recordings (snd (POST_create uuid req w)) !! short_id uuid
        = Some (settings_folder (user_settings w)))
  /\ (forall uuid url req,
     (exists msg, fst (POST_create_signed uuid url req w)
                  = Ok (mkResponse 400 (ErrorBody msg)))
     \/ driveFolderId <$> recordings (snd (POST_create_signed uuid url req w))
                            !! short_id uuid
        = Some (settings_folder (user_settings w)))
  /\ (forall o k payload,
        (folders (snd (PUT o k payload w)) = folders w
         \/ folders (snd (PUT o k payload w))
            = (folders w ++ [settings_folder (user_settings w)])%list)
        /\ driveFolderId <$> recordings (snd (PUT o k payload w)) !! k
           = driveFolderId <$> recordings w !! k)
  /\ (forall o k,
        (folders (snd (POST_transfer o k w)) = folders w
         \/ folders (snd (POST_transfer o k w))
            = (folders w ++ [settings_folder (user_settings w)])%list)
        /\ driveFolderId <$> recordings (snd (POST_transfer o k w)) !! k
           = driveFolderId <$> recordings w !! k).
Proof.
  split; [intros; apply POST_create_folder|].
  split; [intros; apply POST_create_signed_folder|].
  split.
  - intros o k payload. split; [|apply PUT_driveFolderId].
    rewrite !folders_puts.
    destruct (PUT_puts o k payload w) as [-> | (r & _ & ->)]; [by left|right].
    by rewrite fmap_app.
  - intros o k. split; [|apply POST_transfer_driveFolderId].
    rewrite !folders_puts.
    destruct (POST_transfer_puts o k w) as [-> | (r & p & b & _ & _ & _ & ->)];
      [by left|right].
    by rewrite fmap_app.
Qed.

(** ** The derived file name *)

Lemma sanitize_length (t : string) : String.length (sanitize t) = String.length t.
Proof. induction t as [|c t IH]; simpl; congruence. Qed.

Lemma sanitize_get (t : string) (i : nat) :
  String.get i (sanitize t)
  = (fun c => if is_alnum c then c else "_"%char) <$> String.get i t.
Proof.
  revert i. induction t as [|c t IH]; intros i; simpl; [reflexivity|].
  destruct i; simpl; [reflexivity|apply IH].
Qed.

Lemma string_app_length (a b : string) :
  String.length (a +:+ b) = (String.length a + String.length b)%nat.
Proof. induction a as [|c a IH]; simpl; [reflexivity|]. by rewrite <- IH. Qed.

Lemma string_app_inv (a1 a2 b1 b2 : string) :
  String.length a1 = String.length a2 ->
  a1 +:+ b1 = a2 +:+ b2 -> a1 = a2 /\ b1 = b2.
Proof.
  revert a2. induction a1 as [|c a1 IH]; intros [|c2 a2] Hlen Heq;
    simpl in *; try discriminate.
  - by split.
  - injection Heq as -> Heq. injection Hlen as Hlen.
    destruct (IH a2 Hlen Heq) as [-> ->]. by split.
Qed.

Lemma fileName_inj_same_length (t1 t2 k1 k2 : string) :
  String.length k1 = String.length k2 ->
  fileName t1 k1 = fileName t2 k2 -> k1 = k2.
Proof.
  unfold fileName. intros Hlen Heq.
  assert (String.length (sanitize t1) = String.length (sanitize t2)) as Hl.
  { apply (f_equal String.length) in Heq.
    rewrite !string_app_length in Heq. simpl in Heq. lia. }
  apply string_app_inv in Heq as [_ Heq]; [|exact Hl].
  apply (string_app_inv "_" "_") in Heq as [_ Heq]; [|reflexivity].
  by apply string_app_inv in Heq as [? _].
Qed.

Lemma fileName_inj_same_title (t k1 k2 : string) :
  fileName t k1 = fileName t k2 -> k1 = k2.
Proof.
  unfold fileName. intros Heq.
  apply (inj (String.app _)) in Heq. apply (inj (String.app _)) in Heq.
  assert (String.length k1 = String.length k2) as Hl.
  { apply (f_equal String.length) in Heq.
    rewrite !string_app_length in Heq. simpl in Heq. lia. }
  by apply string_app_inv in Heq as [? _].
Qed.

Lemma substring_length (n : nat) (s : string) :
  (n <= String.length s)%nat -> String.length (substring 0 n s) = n.
Proof.
  revert s. induction n as [|n IH]; intros [|c s] Hn; simpl in *;
    try reflexivity; try lia.
  f_equal. apply IH. lia.
Qed.

Lemma short_id_length (uuid : string) :
  (8 <= String.length uuid)%nat -> String.length (short_id uuid) = 8%nat.
Proof. apply substring_length. Qed.

(** ** The statuses a run writes *)

Lemma snd_bind_ret {A B} (m : M A) (f : A -> B) (w : World) :
  snd ((await x := m in ret (f x)) w) = snd (m w).
Proof. unfold bind, ret. by destruct (m w) as [[a|e] w']. Qed.

Ltac finish_status :=
  written; unfold last_or; simpl;
  repeat match goal with H : recordings _ !! _ = _ |- _ => rewrite H end;
  simpl; repeat split; try (intros ?; congruence); eauto 10.

(** [k0] is the id the handler works on, [k] the one observed. *)
Ltac status_at k0 k :=
  unfold status_of;
  let Hne := fresh "Hne" in
  let Hb := fresh "Hb" in
  destruct (decide (k0 = k)) as [->|Hne];
  [ mrun; mauto; rewrite ?lookup_insert_eq, ?lookup_delete_eq; finish_status
  | apply String.eqb_neq in Hne as Hb;
    mrun; mauto; rewrite ?lookup_insert_ne, ?lookup_delete_ne by done;
    written; rewrite ?Hb; finish_status ].

Lemma PUT_status (o : Oracle) (k0 : string) (payload : list byte) (w : World)
    (k : string) :
  let ws := statuses_written k (new_entries w (snd (PUT o k0 payload w))) in
  (ws = [] \/ ws = [uploading; error] \/ ws = [uploading; ready])
  /\ (k <> k0 -> ws = [])
  /\ status_of k (snd (PUT o k0 payload w)) = last_or (status_of k w) ws.
Proof. unfold PUT. status_at k0 k. Qed.

Lemma POST_transfer_status (o : Oracle) (k0 : string) (w : World) (k : string) :
  let ws := statuses_written k (new_entries w (snd (POST_transfer o k0 w))) in
  (ws = [] \/ ws = [error] \/ ws = [uploading; error] \/ ws = [uploading; ready])
  /\ (k <> k0 -> ws = [])
  /\ status_of k (snd (POST_transfer o k0 w)) = last_or (status_of k w) ws.
Proof. unfold POST_transfer. status_at k0 k. Qed.

Lemma PUT_v1_status (o : Oracle) (k0 : string) (payload : list byte) (w : World)
    (k : string) :
  let ws := statuses_written k (new_entries w (snd (PUT_v1 o k0 payload w))) in
  (ws = [] \/ ws = [uploading; error] \/ ws = [uploading; ready])
  /\ (k <> k0 -> ws = [])
  /\ status_of k (snd (PUT_v1 o k0 payload w)) = last_or (status_of k w) ws.
Proof. unfold PUT_v1. status_at k0 k. Qed.

Lemma PUT_query_status (o : Oracle) (recordingId : option string)
    (payload : list byte) (w : World) (k : string) :
  let ws := statuses_written k
              (new_entries w (snd (PUT_query o recordingId payload w))) in
  (ws = [] \/ ws = [uploading] \/ ws = [uploading; ready])
  /\ (recordingId <> Some k -> ws = [])
  /\ status_of k (snd (PUT_query o recordingId payload w))
     = last_or (status_of k w) ws.
Proof.
  unfold PUT_query. destruct recordingId as [k0|]; simpl.
  - status_at k0 k.
  - mrun. unfold status_of. finish_status.
Qed.

Lemma run_job_status (o : Oracle) (j : Job) (w : World) (k : string) :
  let ws := statuses_written k (new_entries w (snd (run_job o j w))) in
  (ws = [] \/ ws = [uploading; error] \/ ws = [uploading; ready])
  /\ (k <> job_id j -> ws = [])
  /\ status_of k (snd (run_job o j w)) = last_or (status_of k w) ws.
Proof.
  unfold run_job, uploadInBackground. destruct j as [k0 file t folder]. simpl.
  status_at k0 k.
Qed.

(** The handlers that read, count a view, rename or save settings write no
    status and leave every status as it is. *)
Lemma quiet_status (a : Action) (w : World) (k : string) :
  match a with
  | ActRequest (ReqStatus _) | ActRequest (ReqGet _ _)
  | ActRequest (ReqPatch _ _) | ActRequest (ReqSaveSettings _)
  | ActRequest (ReqClientUpload _ _) | ActVideoPage _
  | ActPostSettings _ _ => True
  | _ => False
  end ->
  statuses_written k (new_entries w (perform a w)) = []
  /\ status_of k (perform a w) = status_of k w.
Proof.
  destruct a as [r| | | | |k0|]; try done.
  - destruct r as [| | | |k0|k0 view|k0 t| | |]; try done; intros _;
      unfold perform, after, handle; rewrite ?snd_bind_ret.
    + unfold GET_status. status_at k0 k.
    + unfold GET_recording. status_at k0 k.
    + unfold PATCH. status_at k0 k.
    + mrun. unfold status_of. finish_status.
    + mrun. unfold status_of. finish_status.
  - intros _. unfold perform, VideoPage. status_at k0 k.
  - intros _. unfold perform, POST_settings. mrun. unfold status_of.
    mauto; finish_status.
Qed.

Lemma DELETE_status (drive_ok : bool) (k0 : string) (w : World) (k : string) :
  statuses_written k (new_entries w (snd (DELETE drive_ok k0 w))) = []
  /\ status_of k (snd (DELETE drive_ok k0 w))
     = if decide (k = k0) then None else status_of k w.
Proof.
  unfold DELETE, status_of.
  destruct (decide (k = k0)) as [->|Hne].
  - mrun. mauto; rewrite ?lookup_delete_eq; finish_status.
  - mrun. mauto; rewrite ?lookup_delete_ne by done; finish_status.
Qed.

Lemma creation_status (a : Action) (uuid : string) (w : World) (k : string) :
  match a with
  | ActRequest (ReqCreate u _) | ActRequest (ReqCreateSigned u _ _)
  | ActCreateWithFile u _ _ _ => u = uuid
  | _ => False
  end ->
  statuses_written k (new_entries w (perform a w)) = []
  /\ (status_of k (perform a w) = status_of k w
      \/ k = short_id uuid /\ status_of k (perform a w) = Some processing).
Proof.
  destruct a as [r| | |u video t d| | |]; try done.
  - destruct r as [u req|u url req| | | | | | | |]; try done; intros ->;
      unfold perform, after, handle; rewrite ?snd_bind_ret.
    + unfold POST_create. status_at (short_id uuid) k.
    + unfold POST_create_signed. status_at (short_id uuid) k.
  - intros ->. unfold perform, POST_recordings. status_at (short_id uuid) k.
Qed.

Lemma creation_overwrites (uuid : string) (req : CreateRequest) (w : World) :
  is_json req = true ->
  truthy (settings_folder (user_settings w)) = true ->
  status_of (short_id uuid) (after (ReqCreate uuid req) w) = Some processing.
Proof.
  intros Hj Hs. unfold after, handle. rewrite snd_bind_ret.
  unfold POST_create, status_of. mrun. rewrite Hj. simpl. rewrite Hs. simpl.
  by rewrite lookup_insert_eq.
Qed.

(** What any handler writes to one Recording in one run. *)
Lemma perform_writes (a : Action) (w : World) (k : string) :
  let ws := statuses_written k (new_entries w (perform a w)) in
  ws = [] \/ ws = [error] \/ ws = [uploading]
  \/ ws = [uploading; error] \/ ws = [uploading; ready].
Proof.
  destruct a as [r|o k0 p|o rid p|uuid v t d|o j|k0|acc b].
  - destruct r as [uuid req|uuid url req|o k0 p|o k0| | | |ok k0| |].
    + destruct (creation_status (ActRequest (ReqCreate uuid req)) uuid w k
                  eq_refl) as [-> _]. auto.
    + destruct (creation_status (ActRequest (ReqCreateSigned uuid url req))
                  uuid w k eq_refl) as [-> _]. auto.
    + unfold perform, after, handle. rewrite snd_bind_ret.
      destruct (PUT_status o k0 p w k) as [? _]. simpl. intuition auto.
    + unfold perform, after, handle. rewrite snd_bind_ret.
      destruct (POST_transfer_status o k0 w k) as [? _]. simpl. intuition auto.
    + destruct (quiet_status (ActRequest (ReqStatus k0)) w k I) as [-> _]. auto.
    + destruct (quiet_status (ActRequest (ReqGet k0 view)) w k I) as [-> _]. auto.
    + destruct (quiet_status (ActRequest (ReqPatch k0 body_title)) w k I)
        as [-> _]. auto.
    + unfold perform, after, handle. rewrite snd_bind_ret.
      destruct (DELETE_status ok k0 w k) as [-> _]. auto.
    + destruct (quiet_status (ActRequest (ReqSaveSettings s)) w k I)
        as [-> _]. auto.
    + destruct (quiet_status (ActRequest (ReqClientUpload path payload)) w k I)
        as [-> _]. auto.
  - destruct (PUT_v1_status o k0 p w k) as [? _]. simpl. intuition auto.
  - destruct (PUT_query_status o rid p w k) as [? _]. simpl. intuition auto.
  - destruct (creation_status (ActCreateWithFile uuid v t d) uuid w k eq_refl)
      as [-> _]. auto.
  - destruct (run_job_status o j w k) as [? _]. simpl. intuition auto.
  - destruct (quiet_status (ActVideoPage k0) w k I) as [-> _]. auto.
  - destruct (quiet_status (ActPostSettings acc b) w k I) as [-> _]. auto.
Qed.

Lemma last_or_nil (d : option Status) : last_or d [] = d.
Proof. reflexivity. Qed.

(** A handler called for another id, or one that only reads, counts a view,
    renames or saves settings, leaves the status as it is. *)
Lemma status_kept_perform (a : Action) (w : World) (k : string) :
  target a <> Some k -> status_of k (perform a w) = status_of k w.
Proof.
  intros Ht.
  destruct a as [r|o k0 p|o rid p|uuid v t d|o j|k0|acc b].
  - destruct r as [uuid req|uuid url req|o k0 p|o k0|k0|k0 view|k0 t|ok k0|s|path p];
      simpl in Ht.
    + destruct (creation_status (ActRequest (ReqCreate uuid req)) uuid w k
                  eq_refl) as [_ [H|[-> _]]]; [exact H|done].
    + destruct (creation_status (ActRequest (ReqCreateSigned uuid url req))
                  uuid w k eq_refl) as [_ [H|[-> _]]]; [exact H|done].
    + unfold perform, after, handle. rewrite snd_bind_ret.
      destruct (PUT_status o k0 p w k) as (_ & Hws & ->).
      rewrite Hws; [apply last_or_nil|congruence].
    + unfold perform, after, handle. rewrite snd_bind_ret.
      destruct (POST_transfer_status o k0 w k) as (_ & Hws & ->).
      rewrite Hws; [apply last_or_nil|congruence].
    + by destruct (quiet_status (ActRequest (ReqStatus k0)) w k I).
    + by destruct (quiet_status (ActRequest (ReqGet k0 view)) w k I).
    + by destruct (quiet_status (ActRequest (ReqPatch k0 t)) w k I).
    + unfold perform, after, handle. rewrite snd_bind_ret.
      destruct (DELETE_status ok k0 w k) as [_ ->].
      destruct (decide (k = k0)); [congruence|done].
    + by destruct (quiet_status (ActRequest (ReqSaveSettings s)) w k I).
    + by destruct (quiet_status (ActRequest (ReqClientUpload path p)) w k I).
  - simpl in Ht. destruct (PUT_v1_status o k0 p w k) as (_ & Hws & Hst).
    simpl. rewrite Hst, Hws; [apply last_or_nil|congruence].
  - simpl in Ht. destruct (PUT_query_status o rid p w k) as (_ & Hws & Hst).
    simpl. rewrite Hst, Hws; [apply last_or_nil|done].
  - simpl in Ht.
    destruct (creation_status (ActCreateWithFile uuid v t d) uuid w k eq_refl)
      as [_ [H|[-> _]]]; [exact H|done].
  - simpl in Ht. destruct (run_job_status o j w k) as (_ & Hws & Hst).
    simpl. rewrite Hst, Hws; [apply last_or_nil|congruence].
  - by destruct (quiet_status (ActVideoPage k0) w k I).
  - by destruct (quiet_status (ActPostSettings acc b) w k I).
Qed.

Lemma status_kept_perform_all (acts : list Action) (w : World) (k : string) :
  Forall (fun a => target a <> Some k) acts ->
  status_of k (perform_all acts w) = status_of k w.
Proof.
  intros Hacts. revert w.
  induction Hacts as [|a acts Ha _ IH]; intros w; [reflexivity|].
  simpl. rewrite IH. by apply status_kept_perform.
Qed.

(** C1, as stated, fails: on a Recording already in ready, a direct upload
    writes uploading again (and ready after it); with an empty payload it
    takes the Recording from ready through uploading to error. *)
Lemma put_on_ready_regresses :
  status_of "abc12345" demo_ready_world = Some ready
  /\ statuses_written "abc12345"
       (new_entries demo_ready_world
          (after (ReqPut good_drive "abc12345" ["y"%byte]) demo_ready_world))
     = [uploading; ready]
  /\ statuses_written "abc12345"
       (new_entries demo_ready_world
          (after (ReqPut good_drive "abc12345" []) demo_ready_world))
     = [uploading; error]
  /\ status_of "abc12345" (after (ReqPut good_drive "abc12345" []) demo_ready_world)
     = Some error.
Proof. vm_compute. repeat split; reflexivity. Qed.

Lemma PUT_writes_uploading_first
    (o : Oracle) (k : string) (payload : list byte) (w : World) (r : Recording) :
  recordings w !! k = Some r ->
  truthy (settings_folder (user_settings w)) = true ->
  exists s, statuses_written k (new_entries w (snd (PUT o k payload w)))
            = [uploading; s].
Proof.
  intros Hr Hs. unfold PUT. mrun. rewrite Hr. simpl. rewrite Hs. simpl.
  rewrite Hr. simpl. mauto; written; eauto.
Qed.

(** C1, amended. One run of a handler writes to a Recording, by [update],
    one of the status sequences: nothing; error; uploading, error;
    uploading, ready; and, for the query-addressed [PUT] of the earlier
    upload route only, uploading alone.  So ready is written only directly
    after uploading in the same run, and a run on a Recording in processing
    makes it pass through a subsequence of processing, uploading, ready or
    of processing, uploading, error.  The upload handlers (direct upload,
    its earlier versions, transfer trigger, background upload) write only to
    the id they are called for and leave as status the last one written, or
    the former one when none was.  Status check, get and view, rename, share
    page, settings and the client's upload to the bucket write no status and
    leave every status as it was, ready and error included.  Delete removes
    the entry it is called for and leaves the others.  A creation writes no
    update but stores its entry with [set]: the status under its id is
    processing afterwards, also when an entry, ready or error, was there
    under that id; the other ids are untouched.  Hence over any run of
    handlers none of which creates, uploads or deletes for the id of a
    Recording, its status stays what it was.  The handlers do not look at
    the current status: on an existing Recording, with a destination folder
    configured, a direct upload writes uploading first, also when the
    Recording is already in ready or error. *)
Theorem status_writes_per_run (w : World) (k : string) :
  (forall a,
     let ws := statuses_written k (new_entries w (perform a w)) in
     match a with
        | ActRequest (ReqStatus _) | ActRequest (ReqGet _ _)
        | ActRequest (ReqPatch _ _) | ActRequest (ReqSaveSettings _)
        | ActRequest (ReqClientUpload _ _) | ActVideoPage _
        | ActPostSettings _ _ =>
            ws = [] /\ status_of k (perform a w) = status_of k w
        | ActRequest (ReqDelete _ k0) =>
            ws = []
            /\ status_of k (perform a w)
               = (if decide (k = k0) then None else status_of k w)
        | ActRequest (ReqCreate uuid _) | ActRequest (ReqCreateSigned uuid _ _)
        | ActCreateWithFile uuid _ _ _ =>
            ws = []
            /\ (status_of k (perform a w) = status_of k w
                \/ k = short_id uuid
                   /\ status_of k (perform a w) = Some processing)
        | ActRequest (ReqPut _ k0 _) | ActPutV1 _ k0 _ =>
            (ws = [] \/ ws = [uploading; error] \/ ws = [uploading; ready])
            /\ (k <> k0 -> ws = [])
            /\ status_of k (perform a w) = last_or (status_of k w) ws
        | ActRequest (ReqTransfer _ k0) =>
            (ws = [] \/ ws = [error] \/ ws = [uploading; error]
             \/ ws = [uploading; ready])
            /\ (k <> k0 -> ws = [])
            /\ status_of k (perform a w) = last_or (status_of k w) ws
        | ActBackgroundUpload _ j =>
            (ws = [] \/ ws = [uploading; error] \/ ws = [uploading; ready])
            /\ (k <> job_id j -> ws = [])
            /\ status_of k (perform a w) = last_or (status_of k w) ws
        | ActPutQuery _ recordingId _ =>
            (ws = [] \/ ws = [uploading] \/ ws = [uploading; ready])
            /\ (recordingId <> Some k -> ws = [])
            /\ status_of k (perform a w) = last_or (status_of k w) ws
        end)
  /\ (forall a,
        status_of k w = Some processing ->
        let ws := statuses_written k (new_entries w (perform a w)) in
        processing :: ws `sublist_of` [processing; uploading; ready]
        \/ processing :: ws `sublist_of` [processing; uploading; error])
  /\ (forall o payload r,
        recordings w !! k = Some r ->
        truthy (settings_folder (user_settings w)) = true ->
        exists s, statuses_written k (new_entries w (snd (PUT o k payload w)))
                  = [uploading; s])
  /\ (forall uuid req,
        is_json req = true ->
        truthy (settings_folder (user_settings w)) = true ->
        status_of (short_id uuid) (after (ReqCreate uuid req) w)
        = Some processing)
  /\ (forall acts,
        Forall (fun a => target a <> Some k) acts ->
        status_of k (perform_all acts w) = status_of k w).
Proof.
  split.
  { intros a. destruct a as [r|o k0 p|o rid p|uuid v t d|o j|k0|acc b].
    - destruct r as [uuid req|uuid url req|o k0 p|o k0| | | |ok k0| |].
      + exact (creation_status (ActRequest (ReqCreate uuid req)) uuid w k eq_refl).
      + exact (creation_status (ActRequest (ReqCreateSigned uuid url req))
                 uuid w k eq_refl).
      + unfold perform, after, handle. rewrite snd_bind_ret. apply PUT_status.
      + unfold perform, after, handle. rewrite snd_bind_ret.
        apply POST_transfer_status.
      + by apply quiet_status.
      + by apply quiet_status.
      + by apply quiet_status.
      + unfold perform, after, handle. rewrite snd_bind_ret. apply DELETE_status.
      + by apply quiet_status.
      + by apply quiet_status.
    - apply PUT_v1_status.
    - apply PUT_query_status.
    - exact (creation_status (ActCreateWithFile uuid v t d) uuid w k eq_refl).
    - apply run_job_status.
    - by apply quiet_status.
    - by apply quiet_status. }
  split; [|split; [intros o payload r; apply PUT_writes_uploading_first|
           split; [intros uuid req; apply creation_overwrites
                  |intros acts; apply status_kept_perform_all]]].
  intros a _ ws. subst ws.
  destruct (perform_writes a w k) as [-> | [-> | [-> | [-> | ->]]]].
  - left. apply sublist_skip, sublist_nil_l.
  - right. apply sublist_skip, sublist_cons, sublist_skip, sublist_nil.
  - left. apply sublist_skip, sublist_skip, sublist_nil_l.
  - right. reflexivity.
  - left. reflexivity.
Qed.

Lemma status_writes_per_run_witness :
  (processing ::
     statuses_written "abc12345"
       (new_entries demo_world
          (perform (ActRequest (ReqPut good_drive "abc12345" ["x"%byte]))
             demo_world))
     `sublist_of` [processing; uploading; ready]
   \/ processing ::
        statuses_written "abc12345"
          (new_entries demo_world
             (perform (ActRequest (ReqPut good_drive "abc12345" ["x"%byte]))
                demo_world))
        `sublist_of` [processing; uploading; error])
  /\ (exists s,
        statuses_written "abc12345"
          (new_entries demo_ready_world
             (snd (PUT good_drive "abc12345" ["y"%byte] demo_ready_world)))
        = [uploading; s])
  /\ status_of (short_id demo_uuid)
       (after (ReqCreate demo_uuid demo_request) demo_ready_world)
     = Some processing
  /\ status_of "abc12345"
       (perform_all
          [ActRequest (ReqStatus "abc12345");
           ActVideoPage "abc12345";
           ActRequest (ReqPatch "abc12345" (Some "Renamed"));
           ActRequest (ReqPut good_drive "zzzzzzzz" ["x"%byte]);
           ActPutQuery failing_drive None ["x"%byte]] demo_ready_world)
     = status_of "abc12345" demo_ready_world.
Proof.
  split; [|split; [|split]].
  - destruct (status_writes_per_run demo_world "abc12345") as (_ & H & _).
    apply (H (ActRequest (ReqPut good_drive "abc12345" ["x"%byte]))).
    vm_compute. reflexivity.
  - destruct (status_writes_per_run demo_ready_world "abc12345")
      as (_ & _ & H & _).
    apply (H good_drive ["y"%byte] demo_ready_recording).
    + vm_compute. reflexivity.
    + vm_compute. reflexivity.
  - destruct (status_writes_per_run demo_ready_world "abc12345")
      as (_ & _ & _ & H & _).
    apply (H demo_uuid demo_request).
    + reflexivity.
    + vm_compute. reflexivity.
  - destruct (status_writes_per_run demo_ready_world "abc12345")
      as (_ & _ & _ & _ & H).
    apply H. repeat constructor; discriminate.
Defined.

(** ** Ready implies a file reference *)

Ltac mcases :=
  repeat first
    [ progress simpl
    | rewrite lookup_insert_eq
    | match goal with
      | H : context [recordings (mkWorld _ _ _ _ _ _)] |- _ =>
          progress simpl in H
      end
    | match goal with
      | H : <[?k := _]> _ !! ?k = None |- _ =>
          rewrite lookup_insert_eq in H; discriminate
      | H : <[?k := _]> _ !! ?k = Some _ |- _ =>
          rewrite lookup_insert_eq in H
      end
    | progress simplify_eq
    | case_match ].
















Lemma run_cons (r : Request) (rs : list Request) (w : World) :
  run (r :: rs) w = run rs (after r w).
Proof. reflexivity. Qed.













(** ** Concurrent view counting *)

Section ViewCounting.

(** The document whose views are counted. *)
Variable k : string.

Lemma count_done_insert (cs : list Call) (i : nat) (c c' : Call) :
  cs !! i = Some c ->
  (count_done (<[i := c']> cs) + (if is_done c then 1 else 0)
   = count_done cs + (if is_done c' then 1 else 0))%nat.
Proof.
  revert i. induction cs as [|c0 cs IH]; intros [|i] Hl; simplify_eq/=.
  - destruct (is_done c), (is_done c'); lia.
  - specialize (IH i Hl). destruct (is_done c0); lia.
Qed.

Lemma step_counted (v0 : Z) (c c' : World * list Call) :
  step k c c' -> counted v0 k c -> counted v0 k c'.
Proof.
  unfold counted. intros Hstep (r' & Hl & Hv).
  destruct Hstep as [w cs i Hi|w cs i snap Hi Hs|w cs i snap Hi Hs]; simpl in *.
  - exists r'. split; [exact Hl|].
    pose proof (count_done_insert cs i Idle (HasRead (recordings w !! k)) Hi) as Hc.
    simpl in Hc. lia.
  - subst snap. rewrite Hl. mrun. rewrite Hl. simpl. rewrite lookup_insert_eq.
    eexists. split; [reflexivity|]. simpl. rewrite or_zero_id.
    pose proof (count_done_insert cs i _ Done Hi) as Hc. simpl in Hc. lia.
  - exists r'. split; [exact Hl|].
    pose proof (count_done_insert cs i _ Idle Hi) as Hc. simpl in Hc. lia.
Qed.

Lemma rtc_counted (v0 : Z) (c c' : World * list Call) :
  rtc (step k) c c' -> counted v0 k c -> counted v0 k c'.
Proof. induction 1; eauto using step_counted. Qed.

Lemma count_done_replicate_Idle (n : nat) : count_done (replicate n Idle) = 0%nat.
Proof. induction n; simpl; auto. Qed.

Lemma count_done_replicate_Done (n : nat) : count_done (replicate n Done) = n.
Proof. induction n; simpl; auto. Qed.

Lemma schedule_exists (b a : nat) (w : World) :
  exists w', rtc (step k) (w, (replicate a Done ++ replicate b Idle)%list)
                          (w', replicate (a + b) Done).
Proof.
  revert a w. induction b as [|b IH]; intros a w.
  - exists w. rewrite Nat.add_0_r, app_nil_r. apply rtc_refl.
  - destruct (IH (S a) (snd (transaction_commit k (recordings w !! k) w))) as [w' Hw'].
    exists w'. replace (a + S b)%nat with (S a + b)%nat by lia.
    eapply rtc_l.
    { apply (step_read k w _ a). rewrite lookup_app_r; rewrite length_replicate; [|lia].
      by rewrite Nat.sub_diag. }
    eapply rtc_l.
    { apply (step_commit k w _ a (recordings w !! k)); [|reflexivity].
      rewrite list_lookup_insert_eq; [reflexivity|].
      rewrite length_app, !length_replicate. simpl. lia. }
    rewrite list_insert_insert_eq.
    replace (<[a:=Done]> (replicate a Done ++ replicate (S b) Idle)%list)
      with (replicate (S a) Done ++ replicate b Idle)%list; [exact Hw'|].
    rewrite insert_app_r_alt; rewrite length_replicate; [|lia].
    rewrite Nat.sub_diag, replicate_S_end, <- app_assoc. reflexivity.
Qed.

(** C6. [incrementViewCount] is a transaction: read, then commit only if the
    document is unchanged, else run again.  For a Recording present in the
    ledger and [n] calls in flight, some interleaving completes them all, and
    whatever the interleaving, once the [n] calls are done the view count is
    the count before the calls plus [n]. *)
Theorem concurrent_views_counted (w : World) (r : Recording) (n : nat) :
  recordings w !! k = Some r ->
  (exists w', rtc (step k) (w, replicate n Idle) (w', replicate n Done))
  /\ (forall w', rtc (step k) (w, replicate n Idle) (w', replicate n Done) ->
        viewCount <$> recordings w' !! k = Some (viewCount r + Z.of_nat n)).
Proof.
  intros Hr. split.
  - destruct (schedule_exists n 0 w) as [w' Hw']. by exists w'.
  - intros w' Hsteps.
    destruct (rtc_counted (viewCount r) _ _ Hsteps) as (r' & Hl & Hv).
    { exists r. split; [exact Hr|]. simpl. rewrite count_done_replicate_Idle. lia. }
    simpl in *. rewrite Hl. simpl. rewrite Hv, count_done_replicate_Done. done.
Qed.

End ViewCounting.

Lemma concurrent_views_counted_witness :
  (exists w', rtc (step "abc12345") (demo_ready_world, replicate 3 Idle)
                                    (w', replicate 3 Done))
  /\ (forall w', rtc (step "abc12345") (demo_ready_world, replicate 3 Idle)
                                       (w', replicate 3 Done) ->
        viewCount <$> recordings w' !! "abc12345"
        = Some (viewCount demo_ready_recording + Z.of_nat 3)).
Proof.
  apply (concurrent_views_counted "abc12345" demo_ready_world
           demo_ready_recording 3).
  vm_compute. reflexivity.
Defined.

(** Two viewers whose transactions overlap: both read the count 0, the first
    commits, the second fails validation, is aborted, reads again and commits.
    The count ends at 2. *)
Example overlapping_viewers :
  exists w',
    rtc (step "abc12345") (demo_ready_world, [Idle; Idle]) (w', [Done; Done])
    /\ viewCount <$> recordings w' !! "abc12345" = Some 2.
Proof.
  eexists. split.
  - eapply rtc_l; [apply (step_read _ _ _ 0%nat); reflexivity|]. simpl.
    eapply rtc_l; [apply (step_read _ _ _ 1%nat); reflexivity|]. simpl.
    eapply rtc_l;
      [eapply (step_commit _ _ _ 0%nat); [reflexivity|reflexivity]|]. simpl.
    eapply rtc_l.
    { eapply (step_abort _ _ _ 1%nat); [reflexivity|]. vm_compute. discriminate. }
    simpl.
    eapply rtc_l; [apply (step_read _ _ _ 1%nat); reflexivity|]. simpl.
    eapply rtc_l;
      [eapply (step_commit _ _ _ 1%nat); [reflexivity|reflexivity]|]. simpl.
    apply rtc_refl.
  - vm_compute. reflexivity.
Qed.

(** ** The end-to-end scenarios of the specification *)

(** Scenario 1: no destination folder configured, creation is refused. *)
Example scenario_create_misconfigured :
  fst (POST_create demo_uuid demo_request empty_world)
  = Ok (mkResponse 400
          (ErrorBody "Google Drive folder not configured. Please set up in Settings.")).
Proof. reflexivity. Qed.

(** Scenario 2: folder "F1", creation, direct upload of 1024 bytes. *)
Example scenario_direct_upload :
  recordings demo_world !! "abc12345" = Some demo_recording
  /\ statuses_written "abc12345"
       (new_entries demo_world
          (after (ReqPut good_drive "abc12345" (replicate 1024 "x"%byte)) demo_world))
     = [uploading; ready]
  /\ (fun r => (status r, fileSize r, driveFileId r)) <$>
       recordings (after (ReqPut good_drive "abc12345" (replicate 1024 "x"%byte))
                     demo_world) !! "abc12345"
     = Some (ready, 1024, "file-1").
Proof. vm_compute. repeat split; reflexivity. Qed.

(** Scenario 3: signed creation, trigger before any byte was uploaded. *)
Example scenario_trigger_before_upload :
  gcsPath <$> recordings demo_signed_world !! "abc12345"
  = Some (Some "uploads/abc12345.webm")
  /\ code <$> (match fst (POST_transfer good_drive "abc12345" demo_signed_world)
               with Ok resp => Some resp | Throw _ => None end) = Some 404
  /\ status_of "abc12345" (after (ReqTransfer good_drive "abc12345") demo_signed_world)
     = Some error.
Proof. vm_compute. repeat split; reflexivity. Qed.

(** A failure of Drive during a direct upload: 500, and the ledger in error. *)
Example scenario_drive_failure :
  fst (PUT failing_drive "abc12345" ["x"%byte] demo_world)
  = Ok (mkResponse 500 (ErrorBody "Drive files.create failed"))
  /\ status_of "abc12345" (snd (PUT failing_drive "abc12345" ["x"%byte] demo_world))
     = Some error.
Proof. vm_compute. split; reflexivity. Qed.

(** Two ids, two titles that differ only outside [a-zA-Z0-9]: without the
    length condition on the ids the names could meet, with it they cannot. *)
Example fileName_needs_same_length :
  fileName "a_b" "c" = fileName "a" "b_c".
Proof. reflexivity. Qed.

(** * Further properties of the ledger and of the routes *)

(** ** The ledger functions *)

(** X1. [createRecording] returns the record it was given with both
    timestamps set to the time of the call and a view count of 0, whatever
    was stored under that id before; [getRecording] on that id then returns
    the same record, and the other documents are untouched. *)
Theorem createRecording_getRecording (recording : Recording) (w : World) :
  fst (createRecording recording w) = Ok (created_from recording (clock w))
  /\ fst (getRecording (id recording) (snd (createRecording recording w)))
     = Ok (Some (created_from recording (clock w)))
  /\ (forall k, k <> id recording ->
        recordings (snd (createRecording recording w)) !! k = recordings w !! k)
  /\ drive (snd (createRecording recording w)) = drive w
  /\ bucket (snd (createRecording recording w)) = bucket w.
Proof.
  mrun. rewrite lookup_insert_eq. simpl.
  repeat split. intros k Hk. by rewrite lookup_insert_ne.
Qed.

Lemma createRecording_getRecording_witness :
  fst (getRecording (id demo_recording)
         (snd (createRecording demo_recording demo_ready_world)))
  = Ok (Some (created_from demo_recording (clock demo_ready_world)))
  /\ recordings (snd (createRecording demo_recording demo_ready_world)) !! "zz"
     = recordings demo_ready_world !! "zz".
Proof.
  destruct (createRecording_getRecording demo_recording demo_ready_world)
    as (_ & H1 & H2 & _).
  split; [exact H1 | apply H2; discriminate].
Defined.

(** X2. After [deleteRecording] the id reads as null, whether it was there
    or not; an absent id leaves the collection as it was; the other
    documents, Drive and the bucket are never touched. *)
Theorem deleteRecording_getRecording (k : string) (w : World) :
  deleteRecording k w = (Ok tt, snd (deleteRecording k w))
  /\ fst (getRecording k (snd (deleteRecording k w))) = Ok None
  /\ (recordings w !! k = None ->
        recordings (snd (deleteRecording k w)) = recordings w)
  /\ (forall k', k' <> k ->
        recordings (snd (deleteRecording k w)) !! k' = recordings w !! k')
  /\ drive (snd (deleteRecording k w)) = drive w
  /\ bucket (snd (deleteRecording k w)) = bucket w.
Proof.
  mrun. rewrite lookup_delete_eq.
  repeat split.
  - intros Hk. by apply delete_id.
  - intros k' Hk'. by rewrite lookup_delete_ne.
Qed.

Lemma deleteRecording_getRecording_witness :
  recordings (snd (deleteRecording "zzzzzzzz" demo_world)) = recordings demo_world
  /\ recordings (snd (deleteRecording "zzzzzzzz" demo_world)) !! "abc12345"
     = recordings demo_world !! "abc12345".
Proof.
  destruct (deleteRecording_getRecording "zzzzzzzz" demo_world)
    as (_ & _ & H1 & H2 & _).
  split.
  - apply H1. vm_compute. reflexivity.
  - apply H2. discriminate.
Defined.

Lemma incrementViewCount_Some (k : string) (w : World) (r : Recording) :
  recordings w !! k = Some r ->
  incrementViewCount k w
  = (Ok tt,
     mkWorld (<[k := viewed r (clock w)]> (recordings w)) (user_settings w)
       (bucket w) (drive w) (clock w + 1)
       (journal w ++ [(k, with_updatedAt (clock w)
                            (with_viewCount (or_zero (viewCount r) + 1)
                               no_updates))])).
Proof.
  intros Hr. mrun. rewrite Hr. simpl. rewrite Hr. simpl.
  unfold viewed. by rewrite or_zero_id.
Qed.

(** X3. On a recording of the ledger, [incrementViewCount] adds exactly one
    to the view count, sets [updatedAt] to the time of the call, and changes
    no other field, no other document, no file and no setting; [n] calls in
    a row add exactly [n]. *)
Theorem incrementViewCount_present (k : string) (w : World) (r : Recording) :
  recordings w !! k = Some r ->
  fst (incrementViewCount k w) = Ok tt
  /\ recordings (snd (incrementViewCount k w)) !! k = Some (viewed r (clock w))
  /\ (forall k', k' <> k ->
        recordings (snd (incrementViewCount k w)) !! k' = recordings w !! k')
  /\ drive (snd (incrementViewCount k w)) = drive w
  /\ bucket (snd (incrementViewCount k w)) = bucket w
  /\ user_settings (snd (incrementViewCount k w)) = user_settings w
  /\ (forall n, viewCount <$> recordings (view_times n k w) !! k
                = Some (viewCount r + Z.of_nat n)).
Proof.
  intros Hr. rewrite (incrementViewCount_Some k w r Hr). simpl.
  rewrite lookup_insert_eq. repeat split.
  - intros k' Hk'. by rewrite lookup_insert_ne.
  - intros n. induction n as [|n IH].
    + simpl. rewrite Hr. simpl. f_equal. lia.
    + unfold view_times in *. simpl.
      destruct (recordings (Nat.iter n _ w) !! k) as [r'|] eqn:Hr'; [|done].
      rewrite (incrementViewCount_Some k _ r' Hr'). simpl.
      rewrite lookup_insert_eq. simpl. simpl in IH. injection IH as IH.
      f_equal. lia.
Qed.

Lemma incrementViewCount_present_witness :
  viewCount <$> recordings (view_times 3 "abc12345" demo_ready_world) !! "abc12345"
  = Some (viewCount demo_ready_recording + Z.of_nat 3).
Proof.
  destruct (incrementViewCount_present "abc12345" demo_ready_world
              demo_ready_recording) as (_ & _ & _ & _ & _ & _ & H).
  - vm_compute. reflexivity.
  - apply (H 3%nat).
Defined.

(** ** Reading endpoints *)

(** X4. The status check never changes anything and never answers 500: it
    answers 200 with the stored status and file id, or 404 when the id is
    unknown. *)
Theorem GET_status_read_only (k : string) (w : World) :
  snd (GET_status k w) = w
  /\ fst (GET_status k w)
     = Ok (match recordings w !! k with
           | Some r => mkResponse 200 (StatusBody (status r) (driveFileId r))
           | None => mkResponse 404 (ErrorBody "Recording not found")
           end).
Proof.
  unfold GET_status. mrun. by destruct (recordings w !! k).
Qed.

(** X5. [GET] of one recording answers with the recording as it was read,
    before the view is counted; with [view=true] the stored count is one
    more afterwards, without it the world is unchanged. *)
Theorem GET_recording_view (k : string) (w : World) (r : Recording) :
  recordings w !! k = Some r ->
  (forall view,
     fst (GET_recording k view w)
     = Ok (mkResponse 200 (RecordingBody (Some (with_doc_id k r)))))
  /\ recordings (snd (GET_recording k true w)) !! k = Some (viewed r (clock w))
  /\ snd (GET_recording k false w) = w.
Proof.
  intros Hr. unfold GET_recording. split; [intros [|]|split].
  - mrun. rewrite Hr. simpl. rewrite Hr. simpl. by rewrite Hr.
  - mrun. by rewrite Hr.
  - mrun. rewrite Hr. simpl. rewrite Hr. simpl. rewrite Hr. simpl.
    rewrite lookup_insert_eq. unfold viewed. by rewrite or_zero_id.
  - mrun. by rewrite Hr.
Qed.

(** ** Deleting a recording *)

(** X6. [DELETE] of an existing recording answers 200 and removes the ledger
    entry, whether the deletion in Drive worked or not.  Drive is only asked
    when the recording has a file id; when it is asked and answers, no file
    with that id is left; when it throws, Drive is as before.  Nothing else
    of the ledger changes, and the id is unknown afterwards. *)
Theorem DELETE_existing (drive_ok : bool) (k : string) (w : World) (r : Recording) :
  recordings w !! k = Some r ->
  fst (DELETE drive_ok k w) = Ok (mkResponse 200 SuccessBody)
  /\ recordings (snd (DELETE drive_ok k w)) = delete k (recordings w)
  /\ drive (snd (DELETE drive_ok k w))
     = (if truthy (driveFileId r) && drive_ok
        then filter (fun f => f_id f <> driveFileId r) (drive w)
        else drive w)
  /\ (truthy (driveFileId r) = true -> drive_ok = true ->
      forall f, f ∈ drive (snd (DELETE drive_ok k w)) -> f_id f <> driveFileId r)
  /\ bucket (snd (DELETE drive_ok k w)) = bucket w
  /\ (forall ok', fst (DELETE ok' k (snd (DELETE drive_ok k w)))
                  = Ok (mkResponse 404 (ErrorBody "Recording not found")))
  /\ fst (GET_status k (snd (DELETE drive_ok k w)))
     = Ok (mkResponse 404 (ErrorBody "Recording not found")).
Proof.
  intros Hr.
  assert (snd (DELETE drive_ok k w)
          = mkWorld (delete k (recordings w)) (user_settings w) (bucket w)
              (if truthy (driveFileId r) && drive_ok
               then filter (fun f => f_id f <> driveFileId r) (drive w)
               else drive w)
              (clock w) (journal w)
          /\ fst (DELETE drive_ok k w) = Ok (mkResponse 200 SuccessBody))
    as [Hw Hres].
  { unfold DELETE. mrun. rewrite Hr. simpl.
    destruct (truthy (driveFileId r)), drive_ok; simpl; by split. }
  rewrite Hw, Hres. simpl. repeat split.
  - intros Ht Hok f Hf. rewrite Ht, Hok in Hf. simpl in Hf.
    by apply list_elem_of_filter in Hf as [? _].
  - intros ok'. unfold DELETE. mrun. by rewrite lookup_delete_eq.
  - unfold GET_status. mrun. by rewrite lookup_delete_eq.
Qed.

Lemma DELETE_existing_witness :
  fst (DELETE true "abc12345" demo_ready_world) = Ok (mkResponse 200 SuccessBody)
  /\ recordings (snd (DELETE true "abc12345" demo_ready_world))
     = delete "abc12345" (recordings demo_ready_world)
  /\ (forall f, f ∈ drive (snd (DELETE true "abc12345" demo_ready_world)) ->
                f_id f <> driveFileId demo_ready_recording).
Proof.
  destruct (DELETE_existing true "abc12345" demo_ready_world demo_ready_recording)
    as (H1 & H2 & _ & H4 & _).
  - vm_compute. reflexivity.
  - split; [exact H1|]. split; [exact H2|]. apply H4; reflexivity.
Defined.

(** ** Creating a recording *)

(** X7. With a JSON body and a destination folder configured, the creation
    answers 200 with the new entry, the share path [/v/<id>] and the upload
    path [/api/upload/<id>]; the entry is in processing, without file id,
    with a view count of 0 and the folder of the settings, and it is what
    the ledger holds under the id.  Without JSON or without folder the answer
    is 400 and the world is unchanged.  Drive and the bucket are never
    touched. *)
Theorem POST_create_result (uuid : string) (req : CreateRequest) (w : World) :
  (is_json req = true ->
   truthy (settings_folder (user_settings w)) = true ->
   let entry := new_entry (short_id uuid) req (settings_folder (user_settings w))
                  None (clock w) in
   fst (POST_create uuid req w)
   = Ok (mkResponse 200
           (CreatedBody entry ("/v/" +:+ short_id uuid)
              ("/api/upload/" +:+ short_id uuid) None))
   /\ recordings (snd (POST_create uuid req w)) !! short_id uuid = Some entry)
  /\ (is_json req = false
      \/ truthy (settings_folder (user_settings w)) = false ->
      snd (POST_create uuid req w) = w
      /\ exists msg, fst (POST_create uuid req w)
                     = Ok (mkResponse 400 (ErrorBody msg)))
  /\ drive (snd (POST_create uuid req w)) = drive w
  /\ bucket (snd (POST_create uuid req w)) = bucket w.
Proof.
  unfold POST_create. split; [|split].
  - intros Hj Hs. mrun. rewrite Hj, Hs. simpl. by rewrite lookup_insert_eq.
  - intros [Hj|Hs]; mrun.
    + rewrite Hj. eauto.
    + destruct (is_json req); simpl; rewrite ?Hs; simpl; eauto.
  - mrun. by destruct (is_json req),
      (truthy (settings_folder (user_settings w))).
Qed.

Lemma POST_create_result_witness :
  recordings
    (snd (POST_create demo_uuid demo_request (snd (saveSettings demo_settings empty_world))))
    !! "abc12345"
  = Some (new_entry "abc12345" demo_request "F1" None 0)
  /\ snd (POST_create demo_uuid demo_request empty_world) = empty_world.
Proof.
  destruct (POST_create_result demo_uuid demo_request
              (snd (saveSettings demo_settings empty_world))) as (H1 & _).
  destruct (POST_create_result demo_uuid demo_request empty_world) as (_ & H2 & _).
  split.
  - apply H1; reflexivity.
  - apply H2. right. reflexivity.
Defined.

Lemma upload_path_inj (k1 k2 : string) :
  upload_path k1 = upload_path k2 -> k1 = k2.
Proof.
  unfold upload_path. intros Heq. apply (inj (String.app _)) in Heq.
  assert (String.length k1 = String.length k2) as Hl.
  { apply (f_equal String.length) in Heq.
    rewrite !string_app_length in Heq. simpl in Heq. lia. }
  by apply string_app_inv in Heq as [? _].
Qed.

(** X8. The creation with a signed URL stores the same entry with the
    holding path [uploads/<id>.webm] and answers with the signed URL and the
    transfer path [/api/upload/<id>/transfer]; the holding path depends on
    the id alone, and two ids never share one. *)
Theorem POST_create_signed_result
    (uuid url : string) (req : CreateRequest) (w : World) :
  (is_json req = true ->
   truthy (settings_folder (user_settings w)) = true ->
   let entry := new_entry (short_id uuid) req (settings_folder (user_settings w))
                  (Some ("uploads/" +:+ short_id uuid +:+ ".webm")) (clock w) in
   fst (POST_create_signed uuid url req w)
   = Ok (mkResponse 200
           (CreatedBody entry ("/v/" +:+ short_id uuid) url
              (Some ("/api/upload/" +:+ short_id uuid +:+ "/transfer"))))
   /\ recordings (snd (POST_create_signed uuid url req w)) !! short_id uuid
      = Some entry)
  /\ (is_json req = false
      \/ truthy (settings_folder (user_settings w)) = false ->
      snd (POST_create_signed uuid url req w) = w)
  /\ (forall k1 k2, k1 <> k2 -> upload_path k1 <> upload_path k2).
Proof.
  unfold POST_create_signed. split; [|split].
  - intros Hj Hs. mrun. rewrite Hj, Hs. simpl. by rewrite lookup_insert_eq.
  - intros [Hj|Hs]; mrun.
    + by rewrite Hj.
    + destruct (is_json req); simpl; rewrite ?Hs; simpl; eauto.
  - intros k1 k2 Hne Heq. by apply Hne, upload_path_inj.
Qed.

Lemma POST_create_signed_result_witness :
  recordings demo_signed_world !! "abc12345"
  = Some (new_entry "abc12345" demo_request "F1"
            (Some "uploads/abc12345.webm") 0)
  /\ upload_path "abc12345" <> upload_path "abc12346".
Proof.
  destruct (POST_create_signed_result demo_uuid "https://storage.example/signed"
              demo_request (snd (saveSettings demo_settings empty_world)))
    as (H1 & _ & H3).
  split.
  - apply H1; reflexivity.
  - apply H3. discriminate.
Defined.

(** ** The direct upload, end to end *)

Lemma last_make_public (fid name parent mime : string) (content : list byte)
    (l : list DriveFile) :
  last (make_public fid <$> (l ++ [mkDriveFile fid name parent mime content false])%list)
  = Some (mkDriveFile fid name parent mime content true).
Proof.
  rewrite fmap_app. simpl. rewrite last_snoc. unfold make_public. simpl.
  by rewrite String.eqb_refl.
Qed.

(** X9. A direct upload of a non-empty payload for an existing recording,
    with a folder configured and Drive answering, returns 200 with the file
    id; the recording is ready with that file id and the size of the payload,
    its other fields but [updatedAt] as before; the newest file of Drive has
    the derived name, the folder of the settings, the bytes of the payload
    and is public; the bucket and the other recordings are untouched; and
    the status check then reports ready with the file id. *)
Theorem PUT_success (o : Oracle) (k : string) (payload : list byte)
    (w : World) (r : Recording) (fid : string) :
  recordings w !! k = Some r ->
  truthy (settings_folder (user_settings w)) = true ->
  payload <> [] ->
  drive_answers o fid ->
  fst (PUT o k payload w) = Ok (mkResponse 200 (UploadedBody fid ready))
  /\ recordings (snd (PUT o k payload w)) !! k
     = Some (uploaded r fid (Z.of_nat (length payload)) (clock w + 1))
  /\ last (drive (snd (PUT o k payload w)))
     = Some (mkDriveFile fid (fileName (title r) k)
               (settings_folder (user_settings w)) "video/webm" payload true)
  /\ bucket (snd (PUT o k payload w)) = bucket w
  /\ (forall k', k' <> k ->
        recordings (snd (PUT o k payload w)) !! k' = recordings w !! k')
  /\ fst (GET_status k (snd (PUT o k payload w)))
     = Ok (mkResponse 200 (StatusBody ready fid)).
Proof.
  intros Hr Hs Hp (Hc & Hperm & Hget).
  assert ((length payload =? 0)%nat = false) as Hlen.
  { apply Nat.eqb_neq. by destruct payload. }
  unfold GET_status, PUT. mrun. rewrite Hr. simpl. rewrite Hs. simpl.
  rewrite Hr. simpl. rewrite Hlen, Hc. simpl. rewrite Hperm. simpl.
  rewrite Hget. simpl. rewrite !lookup_insert_eq. simpl.
  rewrite lookup_insert_eq. simpl.
  repeat split.
  - apply last_make_public.
  - intros k' Hk'. by rewrite !lookup_insert_ne.
Qed.

Lemma PUT_success_witness :
  fst (PUT good_drive "abc12345" ["x"%byte] demo_world)
  = Ok (mkResponse 200 (UploadedBody "file-1" ready))
  /\ recordings (snd (PUT good_drive "abc12345" ["x"%byte] demo_world)) !! "abc12345"
     = Some (uploaded demo_recording "file-1" 1 2).
Proof.
  destruct (PUT_success good_drive "abc12345" ["x"%byte] demo_world
              demo_recording "file-1") as (H1 & H2 & _).
  - vm_compute. reflexivity.
  - reflexivity.
  - discriminate.
  - repeat split.
  - split; [exact H1|exact H2].
Defined.

(** X10. When a Drive call of a direct upload throws, the answer is 500
    and carries the message of that exception, the one
    [uploadToDriveResumable] threw; the recording is left in error with its
    former file id and size.  A file that Drive had already created before
    the failing call stays in Drive. *)
Theorem PUT_drive_failure (o : Oracle) (k : string) (payload : list byte)
    (w : World) (r : Recording) :
  recordings w !! k = Some r ->
  truthy (settings_folder (user_settings w)) = true ->
  payload <> [] ->
  drive_fails o ->
  (exists msg,
     (forall buffer name mime folder w',
        fst (uploadToDriveResumable o buffer name mime folder w') = Throw msg)
     /\ fst (PUT o k payload w) = Ok (mkResponse 500 (ErrorBody msg)))
  /\ recordings (snd (PUT o k payload w)) !! k = Some (failed r (clock w + 1))
  /\ length (drive (snd (PUT o k payload w)))
     = (length (drive w)
        + match create_reply o with Some _ => 1 | None => 0 end)%nat
  /\ bucket (snd (PUT o k payload w)) = bucket w.
Proof.
  intros Hr Hs Hp Hf.
  assert ((length payload =? 0)%nat = false) as Hlen.
  { apply Nat.eqb_neq. by destruct payload. }
  unfold PUT. mrun. rewrite Hr. simpl. rewrite Hs. simpl.
  rewrite Hr. simpl. rewrite Hlen.
  destruct (create_reply o) as [fid|] eqn:Hc; simpl.
  - destruct (permission_ok o) eqn:Hperm; simpl.
    + destruct (get_ok o) eqn:Hget; simpl.
      * destruct Hf as [?|[?|?]]; congruence.
      * rewrite !lookup_insert_eq. simpl. rewrite lookup_insert_eq.
        rewrite length_fmap, length_app. simpl. eauto 10.
    + rewrite !lookup_insert_eq. simpl. rewrite lookup_insert_eq.
      rewrite length_app. simpl. eauto 10.
  - rewrite !lookup_insert_eq. simpl. rewrite lookup_insert_eq.
    rewrite Nat.add_0_r. eauto 10.
Qed.

Lemma PUT_drive_failure_witness :
  fst (PUT failing_drive "abc12345" ["x"%byte] demo_world)
  = Ok (mkResponse 500 (ErrorBody "Drive files.create failed"))
  /\ recordings (snd (PUT failing_drive "abc12345" ["x"%byte] demo_world))
     !! "abc12345"
     = Some (failed demo_recording 2).
Proof.
  destruct (PUT_drive_failure failing_drive "abc12345" ["x"%byte] demo_world
              demo_recording) as ((msg & Hthrown & Hanswer) & H2 & _).
  - vm_compute. reflexivity.
  - reflexivity.
  - discriminate.
  - left. reflexivity.
  - split; [|exact H2].
    pose proof (Hthrown [] "" "" "" empty_world) as Hm.
    vm_compute in Hm. injection Hm as <-. exact Hanswer.
Defined.

(** X11. A direct upload for an unknown id answers 404, and one for a known
    id without destination folder answers 400; in both cases nothing at all
    has changed: no ledger write, no Drive call. *)
Theorem PUT_rejected_early (o : Oracle) (k : string) (payload : list byte)
    (w : World) :
  (recordings w !! k = None ->
   PUT o k payload w = (Ok (mkResponse 404 (ErrorBody "Recording not found")), w))
  /\ (is_Some (recordings w !! k) ->
      truthy (settings_folder (user_settings w)) = false ->
      snd (PUT o k payload w) = w
      /\ exists msg, fst (PUT o k payload w) = Ok (mkResponse 400 (ErrorBody msg))).
Proof.
  unfold PUT. split.
  - intros Hr. mrun. by rewrite Hr.
  - intros [r Hr] Hs. mrun. rewrite Hr. simpl. rewrite Hs. simpl. eauto.
Qed.

Lemma PUT_rejected_early_witness :
  PUT good_drive "zzzzzzzz" ["x"%byte] demo_world
  = (Ok (mkResponse 404 (ErrorBody "Recording not found")), demo_world)
  /\ snd (PUT good_drive "abc12345" ["x"%byte]
            (set_user_settings None demo_world))
     = set_user_settings None demo_world.
Proof.
  split.
  - apply (PUT_rejected_early good_drive "zzzzzzzz" ["x"%byte] demo_world).
    vm_compute. reflexivity.
  - apply (PUT_rejected_early good_drive "abc12345" ["x"%byte]
             (set_user_settings None demo_world)).
    + exists demo_recording. vm_compute. reflexivity.
    + reflexivity.
Defined.

(** ** The transfer trigger, end to end *)

(** X12. A transfer trigger on a recording whose holding object exists, with
    a folder configured and Drive answering, returns 200 with the file id;
    the recording is ready with that file id and an empty holding path, its
    size and other fields but [updatedAt] as before; the newest file of Drive
    holds exactly the bytes of the holding object, under the derived name, in
    the folder of the settings, and is public.  The holding object is gone
    when its deletion worked and still there when it threw: the answer is
    200 in both cases. *)
Theorem POST_transfer_success (o : Oracle) (k : string) (w : World)
    (r : Recording) (path : string) (content : list byte) (fid : string) :
  transfer_ready k w r path content ->
  drive_answers o fid ->
  fst (POST_transfer o k w) = Ok (mkResponse 200 (UploadedBody fid ready))
  /\ recordings (snd (POST_transfer o k w)) !! k
     = Some (transferred r fid (clock w + 1))
  /\ last (drive (snd (POST_transfer o k w)))
     = Some (mkDriveFile fid (fileName (title r) k)
               (settings_folder (user_settings w)) "video/webm" content true)
  /\ bucket (snd (POST_transfer o k w))
     = (if gcs_delete_ok o then delete path (bucket w) else bucket w)
  /\ (forall k', k' <> k ->
        recordings (snd (POST_transfer o k w)) !! k' = recordings w !! k').
Proof.
  intros (Hr & Hg & Ht & Hb & Hs) (Hc & Hperm & Hget).
  unfold POST_transfer. mrun. rewrite Hr. simpl. rewrite Hg. simpl.
  rewrite Ht. simpl. rewrite Hb. simpl. rewrite Hs. simpl. rewrite Hr. simpl.
  rewrite Hb, Hc. simpl. rewrite Hperm. simpl. rewrite Hget. simpl.
  destruct (gcs_delete_ok o); simpl; repeat (rewrite lookup_insert_eq; simpl);
    (repeat split;
     [apply last_make_public | intros k' Hk'; by rewrite !lookup_insert_ne]).
Qed.

Lemma POST_transfer_success_witness :
  fst (POST_transfer good_drive "abc12345" demo_uploaded_world)
  = Ok (mkResponse 200 (UploadedBody "file-1" ready))
  /\ bucket (snd (POST_transfer good_drive "abc12345" demo_uploaded_world))
     = delete "uploads/abc12345.webm" (bucket demo_uploaded_world).
Proof.
  destruct (POST_transfer_success good_drive "abc12345" demo_uploaded_world
              demo_signed_recording "uploads/abc12345.webm" ["x"%byte] "file-1")
    as (H1 & _ & _ & H4 & _).
  - repeat split; vm_compute; reflexivity.
  - repeat split.
  - split; [exact H1|exact H4].
Defined.

(** X13. When a Drive call of a transfer throws, the answer is 500 and the
    recording is left in error, with its holding path, and the holding object
    is still in the bucket.  A second trigger, with Drive answering, then
    succeeds: it returns 200 and leaves the recording ready. *)
Theorem POST_transfer_failure_then_retry (o o' : Oracle) (k : string)
    (w : World) (r : Recording) (path : string) (content : list byte)
    (fid : string) :
  transfer_ready k w r path content ->
  drive_fails o ->
  drive_answers o' fid ->
  (exists msg, fst (POST_transfer o k w) = Ok (mkResponse 500 (ErrorBody msg)))
  /\ recordings (snd (POST_transfer o k w)) !! k = Some (failed r (clock w + 1))
  /\ bucket (snd (POST_transfer o k w)) = bucket w
  /\ fst (POST_transfer o' k (snd (POST_transfer o k w)))
     = Ok (mkResponse 200 (UploadedBody fid ready))
  /\ status_of k (snd (POST_transfer o' k (snd (POST_transfer o k w))))
     = Some ready.
Proof.
  intros (Hr & Hg & Ht & Hb & Hs) Hf Ho'.
  assert ((exists msg,
             fst (POST_transfer o k w) = Ok (mkResponse 500 (ErrorBody msg)))
          /\ recordings (snd (POST_transfer o k w)) !! k
             = Some (failed r (clock w + 1))
          /\ bucket (snd (POST_transfer o k w)) = bucket w
          /\ user_settings (snd (POST_transfer o k w)) = user_settings w)
    as (H1 & H2 & H3 & H4).
  { unfold POST_transfer. mrun. rewrite Hr. simpl. rewrite Hg. simpl.
    rewrite Ht. simpl. rewrite Hb. simpl. rewrite Hs. simpl. rewrite Hr. simpl.
    rewrite Hb.
    destruct (create_reply o) as [f|] eqn:Hc; simpl;
      [destruct (permission_ok o) eqn:Hperm; simpl;
       [destruct (get_ok o) eqn:Hget; simpl;
        [destruct Hf as [?|[?|?]]; congruence|]|]|];
      repeat (rewrite lookup_insert_eq; simpl); eauto. }
  split; [exact H1|]. split; [exact H2|]. split; [exact H3|].
  destruct (POST_transfer_success o' k (snd (POST_transfer o k w))
              (failed r (clock w + 1)) path content fid) as (H5 & H6 & _).
  - repeat split; [exact H2|exact Hg|exact Ht|by rewrite H3|by rewrite H4].
  - exact Ho'.
  - split; [exact H5|]. unfold status_of. by rewrite H6.
Qed.

Lemma POST_transfer_failure_then_retry_witness :
  fst (POST_transfer good_drive "abc12345"
         (snd (POST_transfer failing_drive "abc12345" demo_uploaded_world)))
  = Ok (mkResponse 200 (UploadedBody "file-1" ready)).
Proof.
  destruct (POST_transfer_failure_then_retry failing_drive good_drive "abc12345"
              demo_uploaded_world demo_signed_recording "uploads/abc12345.webm"
              ["x"%byte] "file-1") as (_ & _ & _ & H & _).
  - repeat split; vm_compute; reflexivity.
  - left. reflexivity.
  - repeat split.
  - exact H.
Defined.

(** X14. A transfer trigger for an unknown id answers 404, and one for a
    recording whose holding object exists but without destination folder
    answers 400; in both cases nothing at all has changed. *)
Theorem POST_transfer_rejected_early (o : Oracle) (k : string) (w : World) :
  (recordings w !! k = None ->
   POST_transfer o k w
   = (Ok (mkResponse 404 (ErrorBody "Recording not found")), w))
  /\ (forall r path content,
        recordings w !! k = Some r -> gcsPath r = Some path ->
        truthy path = true -> bucket w !! path = Some content ->
        truthy (settings_folder (user_settings w)) = false ->
        POST_transfer o k w
        = (Ok (mkResponse 400 (ErrorBody "Google Drive folder not configured")), w)).
Proof.
  unfold POST_transfer. split.
  - intros Hr. mrun. by rewrite Hr.
  - intros r path content Hr Hg Ht Hb Hs. mrun. rewrite Hr. simpl.
    rewrite Hg. simpl. rewrite Ht. simpl. rewrite Hb. simpl. by rewrite Hs.
Qed.

Lemma POST_transfer_rejected_early_witness :
  POST_transfer good_drive "zzzzzzzz" demo_world
  = (Ok (mkResponse 404 (ErrorBody "Recording not found")), demo_world)
  /\ POST_transfer good_drive "abc12345" (set_user_settings None demo_uploaded_world)
     = (Ok (mkResponse 400 (ErrorBody "Google Drive folder not configured")),
        set_user_settings None demo_uploaded_world).
Proof.
  split.
  - apply (POST_transfer_rejected_early good_drive "zzzzzzzz" demo_world).
    vm_compute. reflexivity.
  - apply (POST_transfer_rejected_early good_drive "abc12345"
             (set_user_settings None demo_uploaded_world))
      with demo_signed_recording "uploads/abc12345.webm" ["x"%byte];
      vm_compute; reflexivity.
Defined.

(** ** The earlier upload handlers *)

(** X15. The earlier [PUT] of [/api/upload/[id]] does what the present one
    does on every non-empty payload: same status code, same world
    afterwards.  It differs on the empty payload, which it does not reject:
    with Drive answering, a file of zero bytes is created and the recording
    is marked ready with size 0. *)
Theorem PUT_v1_and_PUT (o : Oracle) (k : string) (payload : list byte) (w : World) :
  (payload <> [] ->
   snd (PUT_v1 o k payload w) = snd (PUT o k payload w)
   /\ exists a b, fst (PUT_v1 o k payload w) = Ok a
                  /\ fst (PUT o k payload w) = Ok b /\ code a = code b)
  /\ (forall r fid,
        recordings w !! k = Some r ->
        truthy (settings_folder (user_settings w)) = true ->
        drive_answers o fid ->
        fst (PUT_v1 o k [] w) = Ok (mkResponse 200 (UploadedBody fid ready))
        /\ recordings (snd (PUT_v1 o k [] w)) !! k
           = Some (uploaded r fid 0 (clock w + 1))
        /\ last (drive (snd (PUT_v1 o k [] w)))
           = Some (mkDriveFile fid (fileName (title r) k)
                     (settings_folder (user_settings w)) "video/webm" [] true)).
Proof.
  split.
  - intros Hp.
    assert ((length payload =? 0)%nat = false) as Hlen.
    { apply Nat.eqb_neq. by destruct payload. }
    unfold PUT_v1, PUT. mrun.
    destruct (recordings w !! k) as [r|] eqn:Hr; simpl;
      [|split; [reflexivity|]; eexists _, _; repeat split].
    destruct (truthy (settings_folder (user_settings w))); simpl;
      [|split; [reflexivity|]; eexists _, _; repeat split].
    rewrite Hr. simpl. rewrite Hlen.
    destruct (create_reply o); simpl;
      [destruct (permission_ok o); simpl; [destruct (get_ok o); simpl|]|];
      repeat (rewrite lookup_insert_eq; simpl);
      (split; [reflexivity|]; eexists _, _; repeat split).
  - intros r fid Hr Hs (Hc & Hperm & Hget).
    unfold PUT_v1. mrun. rewrite Hr. simpl. rewrite Hs. simpl. rewrite Hr.
    simpl. rewrite Hc. simpl. rewrite Hperm. simpl. rewrite Hget. simpl.
    repeat (rewrite lookup_insert_eq; simpl).
    repeat split. apply last_make_public.
Qed.

Lemma PUT_v1_and_PUT_witness :
  snd (PUT_v1 good_drive "abc12345" ["x"%byte] demo_world)
  = snd (PUT good_drive "abc12345" ["x"%byte] demo_world)
  /\ recordings (snd (PUT_v1 good_drive "abc12345" [] demo_world)) !! "abc12345"
     = Some (uploaded demo_recording "file-1" 0 2).
Proof.
  destruct (PUT_v1_and_PUT good_drive "abc12345" ["x"%byte] demo_world) as (H1 & _).
  destruct (PUT_v1_and_PUT good_drive "abc12345" [] demo_world) as (_ & H2).
  split.
  - apply H1. discriminate.
  - apply (H2 demo_recording "file-1"); [vm_compute; reflexivity|reflexivity|].
    repeat split.
Defined.

(** X16. The [PUT] addressed by a query parameter: without id it answers
    400 and changes nothing; for an id that is not in the ledger it answers
    500 without calling Drive; when a Drive call throws it answers 500 and
    leaves the recording in uploading, for its [catch] writes nothing; when
    Drive answers, the recording is ready with the file id, its size
    untouched, and the file is named [recording_<id>.webm]. *)
Theorem PUT_query_outcomes (o : Oracle) (k : string) (payload : list byte)
    (w : World) :
  truthy k = true ->
  truthy (settings_folder (user_settings w)) = true ->
  (forall none, truthy_opt none = false ->
     PUT_query o none payload w = (Ok (QueryError 400 "Recording ID required"), w))
  /\ (recordings w !! k = None ->
      fst (PUT_query o (Some k) payload w) = Ok (QueryError 500 "Upload failed")
      /\ drive (snd (PUT_query o (Some k) payload w)) = drive w
      /\ recordings (snd (PUT_query o (Some k) payload w)) = recordings w)
  /\ (forall r, recordings w !! k = Some r -> drive_fails o ->
      fst (PUT_query o (Some k) payload w) = Ok (QueryError 500 "Upload failed")
      /\ recordings (snd (PUT_query o (Some k) payload w)) !! k
         = Some (marked_uploading r (clock w)))
  /\ (forall r fid, recordings w !! k = Some r -> drive_answers o fid ->
      fst (PUT_query o (Some k) payload w) = Ok (QueryUploaded fid)
      /\ recordings (snd (PUT_query o (Some k) payload w)) !! k
         = Some (uploaded r fid (fileSize r) (clock w + 1))
      /\ last (drive (snd (PUT_query o (Some k) payload w)))
         = Some (mkDriveFile fid ("recording_" +:+ k +:+ ".webm")
                   (settings_folder (user_settings w)) "video/webm" payload true)).
Proof.
  intros Hk Hs. unfold PUT_query. split; [|split; [|split]].
  - intros none Hn. mrun. by rewrite Hn.
  - intros Hr. mrun. rewrite Hk. simpl. rewrite Hs. simpl. by rewrite Hr.
  - intros r Hr Hf. mrun. rewrite Hk. simpl. rewrite Hs. simpl. rewrite Hr. simpl.
    destruct (create_reply o) eqn:Hc; simpl;
      [destruct (permission_ok o) eqn:Hperm; simpl;
       [destruct (get_ok o) eqn:Hget; simpl;
        [destruct Hf as [?|[?|?]]; congruence|]|]|];
      repeat (rewrite lookup_insert_eq; simpl); done.
  - intros r fid Hr (Hc & Hperm & Hget). mrun. rewrite Hk. simpl. rewrite Hs. simpl.
    rewrite Hr. simpl. rewrite Hc. simpl. rewrite Hperm. simpl. rewrite Hget.
    simpl. repeat (rewrite lookup_insert_eq; simpl).
    repeat split. apply last_make_public.
Qed.

Lemma PUT_query_outcomes_witness :
  fst (PUT_query good_drive (Some "zzzzzzzz") ["x"%byte] demo_world)
  = Ok (QueryError 500 "Upload failed")
  /\ recordings (snd (PUT_query failing_drive (Some "abc12345") ["x"%byte] demo_world))
       !! "abc12345"
     = Some (marked_uploading demo_recording 1).
Proof.
  split.
  - destruct (PUT_query_outcomes good_drive "zzzzzzzz" ["x"%byte] demo_world)
      as (_ & H & _); [reflexivity..|].
    apply H. vm_compute. reflexivity.
  - destruct (PUT_query_outcomes failing_drive "abc12345" ["x"%byte] demo_world)
      as (_ & _ & H & _); [reflexivity..|].
    apply (H demo_recording); [vm_compute; reflexivity|left; reflexivity].
Defined.

(** ** The upload that runs after the answer *)

(** X17. [POST /api/recordings] with a file and a configured folder stores
    the new entry and hands the folder of that moment to the upload it
    starts.  That upload, whenever it runs and whatever the settings have
    become, puts the file into that folder, the one stamped in the entry;
    it leaves the recording ready with the file id when Drive answers, in
    error when a Drive call throws, and it is rejected with NOT_FOUND,
    without calling Drive, when the entry is gone. *)
Theorem background_upload (o : Oracle) (uuid : string) (file : list byte)
    (form_title : option string) (duration : option Z) (w : World) :
  truthy (settings_folder (user_settings w)) = true ->
  exists entry job,
    fst (POST_recordings uuid (Some file) form_title duration w)
    = Ok (CreatedOk entry ("/v/" +:+ short_id uuid), Some job)
    /\ recordings (snd (POST_recordings uuid (Some file) form_title duration w))
         !! short_id uuid = Some entry
    /\ status entry = processing
    /\ job_id job = short_id uuid
    /\ job_folder job = driveFolderId entry
    /\ job_folder job = settings_folder (user_settings w)
    /\ (forall w' r fid,
          recordings w' !! job_id job = Some r -> drive_answers o fid ->
          fst (run_job o job w') = Ok tt
          /\ recordings (snd (run_job o job w')) !! job_id job
             = Some (uploaded r fid (fileSize r) (clock w' + 1))
          /\ last (drive (snd (run_job o job w')))
             = Some (mkDriveFile fid (fileName (job_title job) (job_id job))
                       (driveFolderId entry) "video/webm" file true))
    /\ (forall w' r,
          recordings w' !! job_id job = Some r -> drive_fails o ->
          fst (run_job o job w') = Ok tt
          /\ recordings (snd (run_job o job w')) !! job_id job
             = Some (failed r (clock w' + 1)))
    /\ (forall w',
          recordings w' !! job_id job = None ->
          fst (run_job o job w') = Throw "NOT_FOUND: No document to update"
          /\ drive (snd (run_job o job w')) = drive w').
Proof.
  intros Hs. eexists _, _. unfold POST_recordings. mrun. rewrite Hs. simpl.
  rewrite lookup_insert_eq.
  split; [reflexivity|]. split; [reflexivity|]. split; [reflexivity|].
  split; [reflexivity|]. split; [reflexivity|]. split; [reflexivity|].
  unfold run_job, uploadInBackground. simpl. split; [|split].
  - intros w' r fid Hr (Hc & Hperm & Hget). mrun. rewrite Hr. simpl.
    rewrite Hc. simpl. rewrite Hperm. simpl. rewrite Hget. simpl.
    repeat (rewrite lookup_insert_eq; simpl).
    repeat split. apply last_make_public.
  - intros w' r Hr Hf. mrun. rewrite Hr. simpl.
    destruct (create_reply o) eqn:Hc; simpl;
      [destruct (permission_ok o) eqn:Hperm; simpl;
       [destruct (get_ok o) eqn:Hget; simpl;
        [destruct Hf as [?|[?|?]]; congruence|]|]|];
      repeat (rewrite lookup_insert_eq; simpl); done.
  - intros w' Hr. mrun. rewrite Hr. simpl. by rewrite Hr.
Qed.

Lemma background_upload_witness :
  exists entry job,
    fst (POST_recordings demo_uuid (Some ["x"%byte]) (Some "Demo") (Some 42)
           (snd (saveSettings demo_settings empty_world)))
    = Ok (CreatedOk entry ("/v/" +:+ short_id demo_uuid), Some job)
    /\ job_folder job = driveFolderId entry.
Proof.
  destruct (background_upload good_drive demo_uuid ["x"%byte] (Some "Demo")
              (Some 42) (snd (saveSettings demo_settings empty_world)))
    as (entry & job & H1 & _ & _ & _ & H5 & _); [reflexivity|].
  exists entry, job. split; [exact H1|exact H5].
Defined.

(** ** The settings route *)

Lemma match_id_after_cons (p : string) (c : ascii) (rest : string) :
  match_id_after p (String c rest)
  = match after_prefix p (String c rest) with
    | Some tail =>
        if truthy (id_run tail) then Some (id_run tail)
        else match_id_after p rest
    | None => match_id_after p rest
    end.
Proof.
  simpl. destruct p as [|a p']; simpl.
  - by destruct (truthy _).
  - destruct (Ascii.eqb a c); [|done].
    destruct (after_prefix p' rest); [|done]. by destruct (truthy _).
Qed.

Lemma after_prefix_app (p tail : string) : after_prefix p (p +:+ tail) = Some tail.
Proof.
  induction p as [|a p IH]; simpl; [by destruct tail|].
  by rewrite Ascii.eqb_refl, IH.
Qed.

Lemma after_prefix_Some (p s tail : string) :
  after_prefix p s = Some tail -> s = p +:+ tail.
Proof.
  revert s. induction p as [|a p IH]; intros s H; simpl in *.
  - destruct s; simplify_eq; reflexivity.
  - destruct s as [|b s]; [done|].
    destruct (Ascii.eqb_spec a b) as [->|]; [|done].
    by rewrite (IH s H).
Qed.

Lemma all_id_chars_id_run (s : string) : all_id_chars (id_run s) = true.
Proof.
  induction s as [|c s IH]; simpl; [done|].
  destruct (is_id_char c) eqn:Hc; simpl; [|done]. by rewrite Hc.
Qed.

Lemma id_run_app (ident rest : string) :
  all_id_chars ident = true -> id_run rest = "" ->
  id_run (ident +:+ rest) = ident.
Proof.
  intros Hi Hr. induction ident as [|c ident IH]; simpl in *; [done|].
  apply andb_true_iff in Hi as [Hc Hi]. rewrite Hc. f_equal. by apply IH.
Qed.

Lemma all_id_chars_app (a b : string) :
  all_id_chars (a +:+ b) = all_id_chars a && all_id_chars b.
Proof.
  induction a as [|c a IH]; simpl; [done|]. by rewrite IH, andb_assoc.
Qed.

Lemma match_id_after_Some (p s capture : string) :
  match_id_after p s = Some capture ->
  truthy capture = true /\ all_id_chars capture = true.
Proof.
  induction s as [|c s IH].
  - simpl. destruct (after_prefix p "") as [tail|]; [|done].
    destruct (truthy (id_run tail)) eqn:Ht; [|done].
    intros [= <-]. split; [done|apply all_id_chars_id_run].
  - rewrite match_id_after_cons.
    destruct (after_prefix p (String c s)) as [tail|]; [|exact IH].
    destruct (truthy (id_run tail)) eqn:Ht; [|exact IH].
    intros [= <-]. split; [done|apply all_id_chars_id_run].
Qed.

Lemma string_app_assoc (a b c : string) : (a +:+ b) +:+ c = a +:+ b +:+ c.
Proof.
  induction a as [|x a IH]; [done|].
  change (String x ((a +:+ b) +:+ c) = String x (a +:+ b +:+ c)).
  by rewrite IH.
Qed.

Lemma match_id_after_found (p pre tail : string) :
  truthy (id_run tail) = true ->
  is_Some (match_id_after p (pre +:+ p +:+ tail)).
Proof.
  intros Ht. induction pre as [|c pre IH].
  - change ("" +:+ p +:+ tail) with (p +:+ tail).
    destruct (p +:+ tail) as [|c s] eqn:Hs.
    + simpl. rewrite <- Hs, after_prefix_app, Ht. eauto.
    + rewrite match_id_after_cons, <- Hs, after_prefix_app, Ht. eauto.
  - change (String c pre +:+ p +:+ tail) with (String c (pre +:+ p +:+ tail)).
    rewrite match_id_after_cons.
    destruct (after_prefix p _) as [t|]; [|exact IH].
    destruct (truthy (id_run t)); [eauto|exact IH].
Qed.

Lemma match_id_after_inv (p s capture : string) :
  match_id_after p s = Some capture ->
  exists pre tail, s = pre +:+ p +:+ tail /\ truthy (id_run tail) = true
                   /\ capture = id_run tail.
Proof.
  induction s as [|c s IH].
  - simpl. destruct (after_prefix p "") as [tail|] eqn:Hp; [|done].
    destruct (truthy (id_run tail)) eqn:Ht; [|done].
    intros [= <-]. apply after_prefix_Some in Hp. by exists "", tail.
  - rewrite match_id_after_cons.
    destruct (after_prefix p (String c s)) as [tail|] eqn:Hp.
    + destruct (truthy (id_run tail)) eqn:Ht.
      * intros [= <-]. apply after_prefix_Some in Hp. by exists "", tail.
      * intros H. destruct (IH H) as (pre & t & -> & ? & ?).
        by exists (String c pre), t.
    + intros H. destruct (IH H) as (pre & t & -> & ? & ?).
      by exists (String c pre), t.
Qed.

Lemma share_match_folder_match (s : string) :
  is_Some (match_id_after "/folders/" s) -> is_Some (match_id_after "folders/" s).
Proof.
  intros [capture H].
  apply match_id_after_inv in H as (pre & tail & -> & Ht & _).
  replace (pre +:+ "/folders/" +:+ tail)
    with ((pre +:+ "/") +:+ "folders/" +:+ tail)
    by (by rewrite string_app_assoc).
  by apply match_id_after_found.
Qed.

Lemma extract_folder_id_eq (s : string) :
  extract_folder_id s = default s (match_id_after "folders/" s).
Proof.
  unfold extract_folder_id.
  destruct (match_id_after "folders/" s) as [capture|] eqn:Hf; simpl.
  - by destruct (match_id_after "/folders/" s).
  - destruct (match_id_after "/folders/" s) as [c|] eqn:Hs; [|done].
    destruct (share_match_folder_match s) as [? ?]; [eauto|congruence].
Qed.

Lemma after_prefix_head_ne (a b : ascii) (p s : string) :
  Ascii.eqb b a = false -> after_prefix (String a p) (String b s) = None.
Proof. intros H. simpl. rewrite Ascii.eqb_sym in H. by rewrite H. Qed.

Lemma no_f_no_match (p rest : string) :
  no_f p = true ->
  match_id_after "folders/" (p +:+ rest) = match_id_after "folders/" rest.
Proof.
  induction p as [|c p IH]; [done|]. simpl no_f. intros [Hc Hp]%andb_true_iff.
  change (String c p +:+ rest) with (String c (p +:+ rest)).
  rewrite match_id_after_cons, (IH Hp).
  assert (after_prefix "folders/" (String c (p +:+ rest)) = None) as ->; [|done].
  apply after_prefix_head_ne. by apply negb_true_iff.
Qed.

Lemma match_at_head (ident rest : string) :
  truthy ident = true -> all_id_chars ident = true -> id_run rest = "" ->
  match_id_after "folders/" ("folders/" +:+ ident +:+ rest) = Some ident.
Proof.
  intros Ht Hi Hr.
  change ("folders/" +:+ ident +:+ rest)
    with (String "f" ("olders/" +:+ ident +:+ rest)).
  rewrite match_id_after_cons.
  change (String "f" ("olders/" +:+ ident +:+ rest))
    with ("folders/" +:+ ident +:+ rest).
  by rewrite after_prefix_app, (id_run_app _ _ Hi Hr), Ht.
Qed.

Lemma all_id_chars_no_match (s : string) :
  all_id_chars s = true -> match_id_after "folders/" s = None.
Proof.
  intros Hs. destruct (match_id_after "folders/" s) as [c|] eqn:H; [|done].
  apply match_id_after_inv in H as (pre & tail & -> & _).
  rewrite !all_id_chars_app in Hs. simpl in Hs.
  rewrite !andb_false_r in Hs. done.
Qed.

(** X18. The folder id kept from what the user typed is the capture of the
    leftmost [folders/<id>] in it, and the text itself when there is none:
    the second pattern, [/folders/<id>], never decides, since where it
    matches the first one matches too.  So a text made of id characters only
    is kept as it is; a URL whose part before [folders/] has no 'f' gives
    the run of id characters that follows [folders/]; a capture is never
    empty and holds id characters only; and a non-empty text never gives an
    empty folder id. *)
Theorem extract_folder_id_spec (s : string) :
  extract_folder_id s = default s (match_id_after "folders/" s)
  /\ (is_Some (match_id_after "/folders/" s) ->
      is_Some (match_id_after "folders/" s))
  /\ (all_id_chars s = true -> extract_folder_id s = s)
  /\ (forall pre ident rest,
        s = pre +:+ "folders/" +:+ ident +:+ rest ->
        no_f pre = true -> truthy ident = true -> all_id_chars ident = true ->
        id_run rest = "" ->
        extract_folder_id s = ident)
  /\ (forall capture, match_id_after "folders/" s = Some capture ->
        truthy capture = true /\ all_id_chars capture = true)
  /\ (truthy s = true -> truthy (extract_folder_id s) = true).
Proof.
  split; [apply extract_folder_id_eq|].
  split; [apply share_match_folder_match|].
  split; [|split; [|split]].
  - intros Hs. by rewrite extract_folder_id_eq, all_id_chars_no_match.
  - intros pre ident rest -> Hpre Ht Hi Hr.
    by rewrite extract_folder_id_eq, no_f_no_match, match_at_head.
  - intros capture. apply match_id_after_Some.
  - intros Hs. rewrite extract_folder_id_eq.
    destruct (match_id_after "folders/" s) as [c|] eqn:H; simpl; [|done].
    by apply match_id_after_Some in H as [? _].
Qed.

Lemma extract_folder_id_spec_witness :
  extract_folder_id "https://drive.google.com/drive/folders/1AbC_d-9?usp=sharing"
  = "1AbC_d-9"
  /\ extract_folder_id "1AbC_d-9" = "1AbC_d-9".
Proof.
  split.
  - destruct (extract_folder_id_spec
                "https://drive.google.com/drive/folders/1AbC_d-9?usp=sharing")
      as (_ & _ & _ & H & _).
    apply (H "https://drive.google.com/drive/" "1AbC_d-9" "?usp=sharing");
      reflexivity.
  - destruct (extract_folder_id_spec "1AbC_d-9") as (_ & _ & H & _).
    apply H. reflexivity.
Defined.

(** X19. Saving the settings: without folder id the answer is 400, and so
    it is when the folder cannot be accessed; in both cases the stored
    settings are as before.  Otherwise the settings are stored with the
    extracted folder id, which is not empty, and with 1080p, microphone on
    and webcam off for the options the body leaves out; they are what the
    settings are read as afterwards, and a creation that follows is no more
    refused for a missing folder.  Recordings, Drive and the bucket are never
    touched. *)
Theorem POST_settings_result (has_access : string -> bool) (body : SettingsBody)
    (w : World) :
  (truthy_opt (body_driveFolderId body) = false
   \/ has_access (extract_folder_id (default "" (body_driveFolderId body))) = false ->
   snd (POST_settings has_access body w) = w
   /\ exists msg, fst (POST_settings has_access body w) = Ok (SettingsError 400 msg))
  /\ (truthy_opt (body_driveFolderId body) = true ->
      has_access (extract_folder_id (default "" (body_driveFolderId body))) = true ->
      let saved :=
        mkSettings (extract_folder_id (default "" (body_driveFolderId body)))
          (default q1080p (body_defaultQuality body))
          (default true (body_defaultMicEnabled body))
          (default false (body_defaultWebcamEnabled body)) in
      fst (POST_settings has_access body w) = Ok (SettingsOk saved)
      /\ user_settings (snd (POST_settings has_access body w)) = Some saved
      /\ truthy (settings_driveFolderId saved) = true
      /\ fst (GET_settings (snd (POST_settings has_access body w)))
         = Ok (SettingsOk saved)
      /\ (forall uuid req, is_json req = true ->
            exists r, fst (POST_create uuid req (snd (POST_settings has_access body w)))
                      = Ok (mkResponse 200
                              (CreatedBody r ("/v/" +:+ short_id uuid)
                                 ("/api/upload/" +:+ short_id uuid) None))
                      /\ driveFolderId r = settings_driveFolderId saved))
  /\ recordings (snd (POST_settings has_access body w)) = recordings w
  /\ drive (snd (POST_settings has_access body w)) = drive w
  /\ bucket (snd (POST_settings has_access body w)) = bucket w.
Proof.
  unfold POST_settings, GET_settings. split; [|split].
  - intros [Hid|Hacc]; mrun.
    + rewrite Hid. simpl. eauto.
    + destruct (truthy_opt (body_driveFolderId body)); simpl; [|eauto].
      rewrite Hacc. simpl. eauto.
  - intros Hid Hacc. cbv zeta.
    assert (truthy (extract_folder_id (default "" (body_driveFolderId body)))
            = true) as Hsaved.
    { destruct (extract_folder_id_spec (default "" (body_driveFolderId body)))
        as (_ & _ & _ & _ & _ & H). apply H.
      by destruct (body_driveFolderId body). }
    mrun. rewrite Hid. simpl. rewrite Hacc. simpl.
    split; [done|]. split; [done|]. split; [exact Hsaved|]. split; [done|].
    intros uuid req Hj. unfold POST_create. mrun. rewrite Hj. simpl.
    rewrite Hsaved. simpl. eauto.
  - mrun. destruct (truthy_opt (body_driveFolderId body)); simpl; [|done].
    by destruct (has_access _).
Qed.

Lemma POST_settings_result_witness :
  user_settings
    (snd (POST_settings (fun _ => true)
            (mkSettingsBody
               (Some "https://drive.google.com/drive/folders/1AbC_d-9?usp=sharing")
               None None None) empty_world))
  = Some (mkSettings "1AbC_d-9" q1080p true false)
  /\ snd (POST_settings (fun _ => false)
            (mkSettingsBody (Some "1AbC_d-9") None None None) demo_world)
     = demo_world.
Proof.
  split.
  - destruct (POST_settings_result (fun _ => true)
                (mkSettingsBody
                   (Some "https://drive.google.com/drive/folders/1AbC_d-9?usp=sharing")
                   None None None) empty_world) as (_ & H & _).
    apply H; reflexivity.
  - destruct (POST_settings_result (fun _ => false)
                (mkSettingsBody (Some "1AbC_d-9") None None None) demo_world)
      as (H & _).
    apply H. right. reflexivity.
Defined.

(** ** The share page *)

(** X20. Resolving the share link of an existing recording counts exactly
    one view and renders the recording as it was read, before the count; the
    player gets the preview URL of the file id when there is one and no URL
    when the file id is empty.  For an unknown id the page is the not-found
    page and nothing is written.  Computing the page title never writes. *)
Theorem VideoPage_counts_one_view (k : string) (w : World) :
  (forall r, recordings w !! k = Some r ->
     fst (VideoPage k w)
     = Ok (PlayerPage (with_doc_id k r)
             (if truthy (driveFileId r)
              then Some ("https://drive.google.com/file/d/" +:+ driveFileId r
                         +:+ "/preview")
              else None))
     /\ recordings (snd (VideoPage k w)) !! k = Some (viewed r (clock w)))
  /\ (recordings w !! k = None -> VideoPage k w = (Ok NotFoundPage, w))
  /\ snd (generateMetadata k w) = w.
Proof.
  unfold VideoPage, generateMetadata. split; [|split].
  - intros r Hr. mrun. rewrite Hr. simpl. rewrite Hr. simpl. rewrite Hr. simpl.
    rewrite lookup_insert_eq. unfold viewed. by rewrite or_zero_id.
  - intros Hr. mrun. by rewrite Hr.
  - mrun. by destruct (recordings w !! k).
Qed.

Lemma VideoPage_counts_one_view_witness :
  recordings (snd (VideoPage "abc12345" demo_ready_world)) !! "abc12345"
  = Some (viewed demo_ready_recording 3)
  /\ VideoPage "zzzzzzzz" demo_world = (Ok NotFoundPage, demo_world).
Proof.
  destruct (VideoPage_counts_one_view "abc12345" demo_ready_world) as (H1 & _).
  destruct (VideoPage_counts_one_view "zzzzzzzz" demo_world) as (_ & H2 & _).
  split.
  - apply (H1 demo_ready_recording). vm_compute. reflexivity.
  - apply H2. vm_compute. reflexivity.
Defined.

(** ** Listing the recordings *)

Lemma newer_first_total : Total newer_first.
Proof. intros a b. unfold newer_first. lia. Qed.

Lemma newer_first_trans : Transitive newer_first.
Proof. intros a b c. unfold newer_first. lia. Qed.

Lemma listed_eq (limit : nat) (w : World) :
  listed limit w
  = (fun doc => with_doc_id (fst doc) (snd doc))
      <$> take limit (merge_sort newer_first (map_to_list (recordings w))).
Proof. reflexivity. Qed.

Lemma sorted_docs_elem (w : World) (doc : string * Recording) :
  doc ∈ merge_sort newer_first (map_to_list (recordings w))
  <-> recordings w !! fst doc = Some (snd doc).
Proof.
  rewrite merge_sort_Permutation. destruct doc as [k d]. simpl.
  apply elem_of_map_to_list.
Qed.

Lemma listed_elem (limit : nat) (w : World) (r : Recording) :
  r ∈ listed limit w
  <-> exists doc, r = with_doc_id (fst doc) (snd doc)
        /\ doc ∈ take limit (merge_sort newer_first (map_to_list (recordings w))).
Proof. rewrite listed_eq. apply list_elem_of_fmap. Qed.

Lemma sorted_docs_split (limit : nat) (w : World) :
  StronglySorted newer_first
    (take limit (merge_sort newer_first (map_to_list (recordings w)))
     ++ drop limit (merge_sort newer_first (map_to_list (recordings w))))%list.
Proof.
  pose proof newer_first_total. pose proof newer_first_trans.
  rewrite take_drop. apply StronglySorted_merge_sort; apply _.
Qed.

(** X21. [listRecordings] with a positive limit changes nothing and returns
    at most [limit] recordings, as many as the ledger holds when that is
    fewer; each of them is a document of the ledger, with the document key as
    its id, and none comes twice; they come latest creation first; a
    recording that is left out was not created later than any that is listed;
    and with a limit at least the size of the ledger every recording is
    listed. *)
Theorem listRecordings_spec (limit : nat) (w : World) :
  (0 < limit)%nat ->
  snd (listRecordings limit w) = w
  /\ fst (listRecordings limit w) = Ok (listed limit w)
  /\ length (listed limit w) = min limit (size (recordings w))
  /\ (forall r, r ∈ listed limit w ->
        exists d, recordings w !! id r = Some d /\ r = with_doc_id (id r) d)
  /\ NoDup (id <$> listed limit w)
  /\ StronglySorted (fun a b => createdAt b <= createdAt a) (listed limit w)
  /\ (forall k d r, recordings w !! k = Some d ->
        with_doc_id k d ∉ listed limit w -> r ∈ listed limit w ->
        createdAt d <= createdAt r)
  /\ ((size (recordings w) <= limit)%nat ->
      forall k d, recordings w !! k = Some d ->
                  with_doc_id k d ∈ listed limit w).
Proof.
  intros _. split; [reflexivity|]. split; [reflexivity|].
  repeat split.
  - rewrite listed_eq, length_fmap, length_take.
    rewrite (Permutation_length (merge_sort_Permutation _ _)).
    by rewrite length_map_to_list.
  - intros r (doc & -> & Hin)%listed_elem. exists (snd doc). split; [|done].
    apply sorted_docs_elem. by apply (subseteq_take limit).
  - rewrite listed_eq, <- list_fmap_compose.
    apply (sublist_NoDup _
             (fst <$> merge_sort newer_first (map_to_list (recordings w)))).
    + rewrite (merge_sort_Permutation newer_first).
      apply (NoDup_fst_map_to_list (recordings w)).
    + apply fmap_sublist, sublist_take.
  - rewrite listed_eq.
    apply (StronglySorted_fmap _ newer_first).
    + intros a b Hab. exact Hab.
    + exact (StronglySorted_app_1_l _ _ _ (sorted_docs_split limit w)).
  - intros k d r Hk Hout (doc & -> & Hin)%listed_elem. simpl.
    assert (Hd : (k, d) ∈ drop limit
                   (merge_sort newer_first (map_to_list (recordings w)))).
    { assert (Hall : (k, d) ∈ merge_sort newer_first
                                  (map_to_list (recordings w)))
        by by apply sorted_docs_elem.
      rewrite <- (take_drop limit) in Hall.
      apply elem_of_app in Hall as [Ht|Hd]; [|done].
      exfalso. apply Hout. apply listed_elem. by exists (k, d). }
    exact (StronglySorted_app_1_elem_of _ _ _ doc (k, d)
             (sorted_docs_split limit w) Hin Hd).
  - intros Hsize k d Hk. apply listed_elem. exists (k, d). split; [done|].
    rewrite take_ge.
    + by apply sorted_docs_elem.
    + rewrite (Permutation_length (merge_sort_Permutation _ _)).
      by rewrite length_map_to_list.
Qed.

Lemma listRecordings_spec_witness :
  length (listed 1 demo_ready_world) = 1%nat.
Proof.
  destruct (listRecordings_spec 1 demo_ready_world) as (_ & _ & H & _).
  - lia.
  - rewrite H. vm_compute. reflexivity.
Defined.

(** ** What no request but a creation does to an entry *)

Ltac kept :=
  unfold entry_kept, stamped_kept;
  repeat first
    [ match goal with
      | H : context [<[?k := _]> _ !! ?k] |- _ =>
          rewrite lookup_insert_eq in H
      | H : context [delete ?k _ !! ?k] |- _ =>
          rewrite lookup_delete_eq in H
      | H : context [<[_ := _]> _ !! _] |- _ =>
          rewrite lookup_insert_ne in H by done
      | H : context [delete _ _ !! _] |- _ =>
          rewrite lookup_delete_ne in H by done
      | H : recordings _ !! _ = _ |- _ => rewrite H
      end
    | progress simpl in *
    | progress simplify_eq
    | case_match ];
  rewrite ?or_zero_id; try done; try (repeat split; (reflexivity || lia)).

Ltac kept_at k0 k w :=
  let Hk := fresh "Hk" in
  destruct (recordings w !! k) eqn:Hk;
  (destruct (decide (k0 = k)) as [->|?];
   [ mrun; rewrite ?String.eqb_refl; mcases;
     rewrite ?lookup_insert_eq, ?lookup_delete_eq; kept
   | mrun; mcases; rewrite ?lookup_insert_ne, ?lookup_delete_ne by done;
     kept ]).

Lemma after_kept (r : Request) (w : World) (k : string) :
  creates r = false ->
  entry_kept (recordings w !! k) (recordings (after r w) !! k).
Proof.
  unfold after, handle.
  destruct r; simpl; intros Hc; try discriminate; rewrite ?snd_bind_ret.
  - unfold PUT. kept_at k0 k w.
  - unfold POST_transfer. kept_at k0 k w.
  - unfold GET_status. kept_at k0 k w.
  - unfold GET_recording. kept_at k0 k w.
  - unfold PATCH. kept_at k0 k w.
  - unfold DELETE. kept_at k0 k w.
  - mrun. destruct (recordings w !! k); kept.
  - mrun. destruct (recordings w !! k); kept.
Qed.

Lemma entry_kept_trans (a b c : option Recording) :
  entry_kept a b -> entry_kept b c -> entry_kept a c.
Proof.
  unfold entry_kept, stamped_kept.
  destruct a as [ra|], b as [rb|], c as [rc|]; try done.
  intros (-> & -> & -> & -> & -> & ?) (-> & -> & -> & -> & -> & ?).
  repeat split. lia.
Qed.

(** X22. Across a run of requests none of which is a creation, whatever
    Drive and the bucket answer: an id that is not in the ledger stays out
    of it, and an entry of the ledger either is deleted or keeps its id, its
    creation time, its folder stamp, its duration and its thumbnail, while
    its view count does not go down. *)
Theorem stamped_fields_kept (rs : list Request) (w : World) (k : string) :
  Forall (fun r => creates r = false) rs ->
  entry_kept (recordings w !! k) (recordings (run rs w) !! k).
Proof.
  intros Hrs. revert w. induction Hrs as [|r rs Hr _ IH]; intros w.
  - simpl. unfold entry_kept, stamped_kept.
    destruct (recordings w !! k); [repeat split; lia | done].
  - rewrite run_cons.
    exact (entry_kept_trans _ _ _ (after_kept r w k Hr) (IH (after r w))).
Qed.

Lemma stamped_fields_kept_witness :
  entry_kept (recordings demo_world !! "abc12345")
    (recordings
       (run [ReqPut failing_drive "abc12345" ["x"%byte];
             ReqGet "abc12345" true;
             ReqPatch "abc12345" (Some "Renamed");
             ReqSaveSettings other_settings;
             ReqPut good_drive "abc12345" ["x"%byte]] demo_world)
     !! "abc12345").
Proof.
  apply stamped_fields_kept. repeat constructor.
Defined.

(** ** The failure badge *)

Lemma getStatusBadge_failed (now : Date) (r : Recording) :
  getStatusBadge now r = BadgeFailed
  <-> (status r = processing \/ status r = uploading)
      /\ 600000 < now - createdAt r.
Proof.
  unfold getStatusBadge.
  destruct (Z.ltb_spec (10 * 60 * 1000) (now - createdAt r));
    destruct (status r); simpl; split;
    (intros [[?|?] ?] || intros ?); try discriminate; try lia; auto.
Qed.

(** X23. The dashboard shows an entry as failed exactly when it is in
    processing or uploading and more than ten minutes, strictly, have passed
    since its creation.  No request but a creation takes that badge back to
    Processing or Uploading: after the request, and at any later time, the
    entry shows Ready or Error when that is its status and Failed otherwise,
    so a stuck entry that a later request leaves in uploading is still
    shown as failed. *)
Theorem failed_badge_sticks (r : Request) (w : World) (k : string)
    (r0 r' : Recording) (now later : Date) :
  creates r = false ->
  recordings w !! k = Some r0 ->
  recordings (after r w) !! k = Some r' ->
  now <= later ->
  getStatusBadge now r0 = BadgeFailed ->
  (forall t e, getStatusBadge t e = BadgeFailed
     <-> (status e = processing \/ status e = uploading)
         /\ 600000 < t - createdAt e)
  /\ getStatusBadge later r'
     = match status r' with
       | ready => BadgeReady
       | error => BadgeError
       | processing | uploading => BadgeFailed
       end.
Proof.
  intros Hc H0 H' Hle Hf. split; [apply getStatusBadge_failed|].
  pose proof (after_kept r w k Hc) as Hk. rewrite H0, H' in Hk.
  destruct Hk as (_ & Hcreated & _).
  apply getStatusBadge_failed in Hf as [_ Hlate].
  destruct (status r') eqn:Hs.
  - apply getStatusBadge_failed. rewrite Hs, Hcreated. split; [auto|lia].
  - apply getStatusBadge_failed. rewrite Hs, Hcreated. split; [auto|lia].
  - unfold getStatusBadge. by rewrite Hs.
  - unfold getStatusBadge. by rewrite Hs.
Qed.

Lemma failed_badge_sticks_witness :
  getStatusBadge 600002
    (default demo_recording
       (recordings (after (ReqPut failing_drive "abc12345" []) demo_world)
        !! "abc12345"))
  = BadgeError
  /\ getStatusBadge 600002
       (default demo_recording
          (recordings (after (ReqPatch "abc12345" (Some "Renamed")) demo_world)
           !! "abc12345"))
     = BadgeFailed.
Proof.
  split.
  - refine (proj2 (failed_badge_sticks (ReqPut failing_drive "abc12345" [])
                     demo_world "abc12345" demo_recording _ 600001 600002
                     _ _ _ _ _)).
    + reflexivity.
    + vm_compute. reflexivity.
    + vm_compute. reflexivity.
    + lia.
    + vm_compute. reflexivity.
  - refine (proj2 (failed_badge_sticks (ReqPatch "abc12345" (Some "Renamed"))
                     demo_world "abc12345" demo_recording _ 600001 600002
                     _ _ _ _ _)).
    + reflexivity.
    + vm_compute. reflexivity.
    + vm_compute. reflexivity.
    + lia.
    + vm_compute. reflexivity.
Defined.

(** Witness of X5: the recording of the sample ledger, read with and
    without [view=true]. *)
Lemma GET_recording_view_witness :
  recordings (snd (GET_recording "abc12345" true demo_ready_world)) !! "abc12345"
  = Some (viewed demo_ready_recording 3)
  /\ snd (GET_recording "abc12345" false demo_ready_world) = demo_ready_world.
Proof.
  destruct (GET_recording_view "abc12345" demo_ready_world demo_ready_recording)
    as (_ & H1 & H2).
  - vm_compute. reflexivity.
  - split; [exact H1 | exact H2].
Defined.

(** ** File names *)

Lemma is_alnum_in_alnum_chars (c : ascii) : is_alnum c = in_alnum_chars c.
Proof.
  destruct c as [[|] [|] [|] [|] [|] [|] [|] [|]]; vm_compute; reflexivity.
Qed.

Lemma in_alnum_chars_In (c : ascii) :
  in_alnum_chars c = true <-> In c (list_ascii_of_string alnum_chars).
Proof.
  unfold in_alnum_chars. rewrite existsb_exists. split.
  - intros (x & Hin & Heq). apply Ascii.eqb_eq in Heq. by subst.
  - intros Hin. exists c. split; [done|]. apply Ascii.eqb_refl.
Qed.

Lemma sanitize_get_class (t : string) (i : nat) :
  String.get i (sanitize t)
  = (fun c => if in_alnum_chars c then c else "_"%char) <$> String.get i t.
Proof.
  rewrite sanitize_get. destruct (String.get i t) as [c|]; [|done].
  simpl. by rewrite is_alnum_in_alnum_chars.
Qed.

(** No handler but a creation adds an id to the ledger. *)
Lemma perform_kept (a : Action) (w : World) (k : string) :
  match a with
  | ActRequest r => creates r = false
  | ActCreateWithFile _ _ _ _ => False
  | _ => True
  end ->
  entry_kept (recordings w !! k) (recordings (perform a w) !! k).
Proof.
  destruct a as [r|o k0 p|o rid p|uuid v t d|o j|k0|acc b]; simpl; try done.
  - apply after_kept.
  - intros _. unfold PUT_v1. kept_at k0 k w.
  - intros _. unfold PUT_query. destruct rid as [k0|]; simpl.
    + kept_at k0 k w.
    + mrun. destruct (recordings w !! k); kept.
  - intros _. unfold run_job, uploadInBackground.
    destruct j as [k0 file t folder]. simpl. kept_at k0 k w.
  - intros _. unfold VideoPage. kept_at k0 k w.
  - intros _. unfold POST_settings. mrun.
    destruct (recordings w !! k) eqn:Hk; mcases; kept.
Qed.

(** A creation stores under the first 8 characters of its uuid and nowhere
    else. *)
Lemma creation_id (a : Action) (uuid : string) (w : World) (k : string) :
  match a with
  | ActRequest (ReqCreate u _) | ActRequest (ReqCreateSigned u _ _)
  | ActCreateWithFile u _ _ _ => u = uuid
  | _ => False
  end ->
  k <> short_id uuid ->
  recordings (perform a w) !! k = recordings w !! k.
Proof.
  destruct a as [r| | |u video t d| | |]; try done.
  - destruct r as [u req|u url req| | | | | | | |]; try done; intros -> Hne;
      unfold perform, after, handle; rewrite ?snd_bind_ret.
    + unfold POST_create. mrun. mauto; by rewrite ?lookup_insert_ne.
    + unfold POST_create_signed. mrun. mauto; by rewrite ?lookup_insert_ne.
  - intros -> Hne. unfold perform, POST_recordings. mrun.
    mauto; by rewrite ?lookup_insert_ne.
Qed.

Lemma short_ids_perform (a : Action) (w : World) :
  uuid_ok a = true -> short_ids w -> short_ids (perform a w).
Proof.
  intros Hok Hw k rk Hk.
  assert (Hold : forall r0, recordings w !! k = Some r0 -> String.length k = 8%nat)
    by (intros r0; apply Hw).
  assert (Hkept : entry_kept (recordings w !! k) (recordings (perform a w) !! k)
                  -> String.length k = 8%nat).
  { unfold entry_kept. rewrite Hk.
    destruct (recordings w !! k) as [r0|]; [eauto|done]. }
  assert (Hnew : forall uuid,
            (8 <=? String.length uuid)%nat = true ->
            (k <> short_id uuid -> recordings (perform a w) !! k = recordings w !! k) ->
            String.length k = 8%nat).
  { intros uuid Hlen Hother.
    destruct (decide (k = short_id uuid)) as [->|Hne].
    - apply short_id_length. by apply Nat.leb_le.
    - rewrite (Hother Hne) in Hk. eauto. }
  destruct a as [r| | |uuid v t d| | |];
    try (apply Hkept; by apply perform_kept).
  - destruct r as [uuid req|uuid url req| | | | | | | |];
      try (apply Hkept; by apply perform_kept).
    + apply (Hnew uuid Hok).
      exact (creation_id (ActRequest (ReqCreate uuid req)) uuid w k eq_refl).
    + apply (Hnew uuid Hok).
      exact (creation_id (ActRequest (ReqCreateSigned uuid url req)) uuid w k
               eq_refl).
  - apply (Hnew uuid Hok).
    exact (creation_id (ActCreateWithFile uuid v t d) uuid w k eq_refl).
Qed.

Lemma short_ids_perform_all (acts : list Action) (w : World) :
  Forall (fun a => uuid_ok a = true) acts ->
  short_ids w -> short_ids (perform_all acts w).
Proof.
  intros Hacts. revert w.
  induction Hacts as [|a acts Ha _ IH]; intros w Hw; [exact Hw|].
  simpl. apply IH. by apply short_ids_perform.
Qed.

Lemma short_ids_empty : short_ids empty_world.
Proof. intros k r Hk. vm_compute in Hk. discriminate. Qed.

(** C9. The name handed to Drive by the direct upload and by the transfer
    trigger is the title with every character outside [a-zA-Z0-9] replaced
    by '_' (same length, character by character; the class is the 62
    characters of [alnum_chars], a character of the model being a code unit
    below 256), then '_', the id and ".webm".  The Recordings of a ledger
    built by the handlers, from uuids of at least 8 characters, have ids of
    8 characters, so that two of them with distinct ids get distinct names
    whatever their titles; and for equal titles distinct ids give distinct
    names whatever the ids. *)
Theorem upload_file_name :
  (forall c, is_alnum c = true <-> In c (list_ascii_of_string alnum_chars))
  /\ (forall t, String.length (sanitize t) = String.length t)
  /\ (forall t i, String.get i (sanitize t)
                  = (fun c => if in_alnum_chars c then c else "_"%char)
                      <$> String.get i t)
  /\ (forall t k, fileName t k = sanitize t +:+ "_" +:+ k +:+ ".webm")
  /\ (forall o k payload w,
        names (snd (PUT o k payload w)) = names w
        \/ exists r, recordings w !! k = Some r
             /\ names (snd (PUT o k payload w))
                = (names w ++ [sanitize (title r) +:+ "_" +:+ k +:+ ".webm"])%list)
  /\ (forall o k w,
        names (snd (POST_transfer o k w)) = names w
        \/ exists r, recordings w !! k = Some r
             /\ names (snd (POST_transfer o k w))
                = (names w ++ [sanitize (title r) +:+ "_" +:+ k +:+ ".webm"])%list)
  /\ (forall t k1 k2, k1 <> k2 -> fileName t k1 <> fileName t k2)
  /\ (forall t1 t2 k1 k2,
        String.length k1 = String.length k2 -> k1 <> k2 ->
        fileName t1 k1 <> fileName t2 k2)
  /\ (forall uuid, (8 <= String.length uuid)%nat ->
                   String.length (short_id uuid) = 8%nat)
  /\ (forall acts,
        Forall (fun a => uuid_ok a = true) acts ->
        forall k1 k2 r1 r2,
          recordings (perform_all acts empty_world) !! k1 = Some r1 ->
          recordings (perform_all acts empty_world) !! k2 = Some r2 ->
          k1 <> k2 ->
          fileName (title r1) k1 <> fileName (title r2) k2).
Proof.
  split.
  { intros c. rewrite is_alnum_in_alnum_chars. apply in_alnum_chars_In. }
  split; [apply sanitize_length|].
  split; [apply sanitize_get_class|].
  split; [reflexivity|].
  split; [|split; [|split; [|split; [|split; [apply short_id_length|]]]]].
  - intros o k payload w. rewrite !names_puts.
    destruct (PUT_puts o k payload w) as [-> | (r & Hr & ->)]; [by left|right].
    exists r. split; [exact Hr|]. by rewrite fmap_app.
  - intros o k w. rewrite !names_puts.
    destruct (POST_transfer_puts o k w) as [-> | (r & p & b & Hr & _ & _ & ->)];
      [by left|right].
    exists r. split; [exact Hr|]. by rewrite fmap_app.
  - intros t k1 k2 Hne Heq. apply Hne. by apply fileName_inj_same_title with t.
  - intros t1 t2 k1 k2 Hlen Hne Heq. apply Hne.
    by apply fileName_inj_same_length with t1 t2.
  - intros acts Hacts k1 k2 r1 r2 H1 H2 Hne Heq. apply Hne.
    pose proof (short_ids_perform_all acts empty_world Hacts short_ids_empty)
      as Hids.
    apply fileName_inj_same_length with (title r1) (title r2); [|exact Heq].
    by rewrite (Hids k1 r1 H1), (Hids k2 r2 H2).
Qed.

Lemma upload_file_name_witness :
  fileName "My demo" "abc12345" <> fileName "My demo" "abc12346"
  /\ fileName "a_b" "abc12345" <> fileName "a b" "abc12346"
  /\ fileName "Demo" "abc12345" <> fileName "Demo" "abc12346".
Proof.
  destruct upload_file_name as (_ & _ & _ & _ & _ & _ & H1 & H2 & _ & H3).
  split; [|split].
  - apply (H1 "My demo" "abc12345" "abc12346"). discriminate.
  - apply (H2 "a_b" "a b" "abc12345" "abc12346"); [reflexivity|discriminate].
  - apply (H3 [ActRequest (ReqSaveSettings demo_settings);
               ActRequest (ReqCreate demo_uuid demo_request);
               ActRequest (ReqCreate "abc12346-0000-4000-8000-000000000000"
                             demo_request);
               ActRequest (ReqPut good_drive "abc12346" ["x"%byte])]
              (ltac:(repeat constructor)) "abc12345" "abc12346"
              demo_recording
              {| id := "abc12346"; title := "Demo"; driveFileId := "file-1";
                 driveFolderId := "F1"; duration := 42; thumbnailUrl := None;
                 status := ready; createdAt := 1; updatedAt := 3;
                 viewCount := 0; fileSize := 1; gcsPath := None |}).
    + vm_compute. reflexivity.
    + vm_compute. reflexivity.
    + discriminate.
Defined.
